(** * AccountManager: account operations over an injected request dispatcher

    A shallow embedding of the account manager of the client library
    (class [AccountManager]) and of the payload values it walks through,
    followed by the properties its description states about it. *)

From Stdlib Require Import List String Ascii Bool Arith ZArith Lia DecimalString.
Import ListNotations.
Open Scope string_scope.
Open Scope list_scope.
Set Warnings "-register-all".

(** ** JavaScript values as the module sees them

    Response payloads are untyped JSON data.  Reading a property that is
    absent yields [undefined], so [undefined] is a value of the model too.
    The module never computes with payload numbers: it only tests, compares
    and prints them, so a number is kept as the text JavaScript prints for it
    (its [ToString]).  An object is the list of its own properties in
    insertion order; a property read takes the first entry with the name. *)

Inductive value : Type :=
| VUndefined
| VNull
| VBool (b : bool)
| VNum (printed : string)
| VStr (s : string)
| VArr (elems : list value)
| VObj (props : list (string * value)).

(** Errors that end an operation: a rejected promise or a thrown exception. *)
Inductive error : Type :=
| InnertubeError (message : string) (info : value)
| TypeError (message : string)
| RuntimeTypeError
| Foreign (reason : value).

Inductive result (A : Type) : Type :=
| Ok (a : A)
| Err (e : error).
Arguments Ok {A} a.
Arguments Err {A} e.

Definition rbind {A B} (r : result A) (k : A -> result B) : result B :=
  match r with
  | Ok a => k a
  | Err e => Err e
  end.

Fixpoint assoc {A} (k : string) (l : list (string * A)) : option A :=
  match l with
  | [] => None
  | (k', a) :: rest => if String.eqb k k' then Some a else assoc k rest
  end.

(** [v.k] for a name [k] that is not a built-in property of strings, arrays,
    numbers or booleans (none of the names this module reads is one): a
    [TypeError] of the runtime on [undefined] and [null], the own property of
    an object, [undefined] everywhere else. *)
Definition get (v : value) (k : string) : result value :=
  match v with
  | VUndefined | VNull => Err RuntimeTypeError
  | VObj props =>
      match assoc k props with
      | Some x => Ok x
      | None => Ok VUndefined
      end
  | _ => Ok VUndefined
  end.

(** [v[0]]: the first element of an array, the property ["0"] of an object,
    the first character of a string. *)
Definition get0 (v : value) : result value :=
  match v with
  | VUndefined | VNull => Err RuntimeTypeError
  | VArr elems => Ok (nth 0 elems VUndefined)
  | VObj props =>
      match assoc "0" props with
      | Some x => Ok x
      | None => Ok VUndefined
      end
  | VStr (String c _) => Ok (VStr (String c EmptyString))
  | _ => Ok VUndefined
  end.

(** A chain of property reads [v.k1.k2...kn]. *)
Fixpoint walk (v : value) (path : list string) : result value :=
  match path with
  | [] => Ok v
  | k :: rest => rbind (get v k) (fun x => walk x rest)
  end.

(** [ToString] on payload values.  An array prints as its elements joined by
    commas, with [undefined] and [null] elements printed as nothing.  An
    object is turned into a primitive by its [toString]: a parsed object that
    has an own property of that name has no callable one, and the conversion
    throws; any other prints as "[object Object]". *)
Fixpoint to_string (v : value) : result string :=
  match v with
  | VUndefined => Ok "undefined"
  | VNull => Ok "null"
  | VBool true => Ok "true"
  | VBool false => Ok "false"
  | VNum printed => Ok printed
  | VStr s => Ok s
  | VArr elems =>
      rbind
        ((fix each (l : list value) : result (list string) :=
            match l with
            | [] => Ok []
            | x :: rest =>
                rbind (match x with
                       | VUndefined | VNull => Ok ""
                       | _ => to_string x
                       end)
                  (fun s => rbind (each rest) (fun ss => Ok (s :: ss)))
            end) elems)
        (fun parts => Ok (String.concat "," parts))
  | VObj props =>
      match assoc "toString" props with
      | Some _ => Err RuntimeTypeError
      | None => Ok "[object Object]"
      end
  end.

Definition elem_string (v : value) : result string :=
  match v with
  | VUndefined | VNull => Ok ""
  | _ => to_string v
  end.

(** The strings of the elements, left to right, up to the first that throws. *)
Fixpoint strings_of (l : list value) : result (list string) :=
  match l with
  | [] => Ok []
  | x :: rest =>
      rbind (elem_string x) (fun s => rbind (strings_of rest) (fun ss => Ok (s :: ss)))
  end.

(** [Array.prototype.join(sep)]. *)
Definition join (sep : string) (l : list value) : result string :=
  rbind (strings_of l) (fun parts => Ok (String.concat sep parts)).

(** Whether [ToString] goes through: no object with an own [toString] is
    met on the way. *)
Fixpoint printable (v : value) : bool :=
  match v with
  | VArr elems =>
      (fix all (l : list value) : bool :=
         match l with
         | [] => true
         | x :: rest => printable x && all rest
         end) elems
  | VObj props =>
      match assoc "toString" props with
      | Some _ => false
      | None => true
      end
  | _ => true
  end.

(** [ToBoolean]. *)
Definition truthy (v : value) : bool :=
  match v with
  | VUndefined | VNull => false
  | VBool b => b
  | VNum printed => negb (String.eqb printed "0" || String.eqb printed "NaN")
  | VStr s => negb (String.eqb s "")
  | VArr _ | VObj _ => true
  end.

(** [String.prototype.trim] on strings of code units below 256: the white
    space and line terminators in that range are removed at both ends. *)
Definition is_space (c : ascii) : bool :=
  let n := nat_of_ascii c in
  ((9 <=? n)%nat && (n <=? 13)%nat) || (n =? 32)%nat || (n =? 160)%nat.

Fixpoint trim_start (s : string) : string :=
  match s with
  | String c rest => if is_space c then trim_start rest else s
  | EmptyString => EmptyString
  end.

Fixpoint trim_end (s : string) : string :=
  match s with
  | String c rest =>
      match trim_end rest with
      | EmptyString => if is_space c then EmptyString else String c EmptyString
      | kept => String c kept
      end
  | EmptyString => EmptyString
  end.

Definition trim (s : string) : string := trim_end (trim_start s).

(** Receivers of the array methods the module calls ([find], [map]): on
    anything but an array the call is a [TypeError] of the runtime. *)
Definition as_array (v : value) : result (list value) :=
  match v with
  | VArr elems => Ok elems
  | _ => Err RuntimeTypeError
  end.

(** [Array.prototype.find] with a callback that may throw. *)
Fixpoint array_find (p : value -> result bool) (l : list value) : result value :=
  match l with
  | [] => Ok VUndefined
  | x :: rest =>
      rbind (p x) (fun hit => if hit then Ok x else array_find p rest)
  end.

(** [Array.prototype.map] with a callback that may throw. *)
Fixpoint array_map {B} (f : value -> result B) (l : list value) : result (list B) :=
  match l with
  | [] => Ok []
  | x :: rest =>
      rbind (f x) (fun y => rbind (array_map f rest) (fun ys => Ok (y :: ys)))
  end.

(** [runs.map((run) => run.text).join("")]. *)
Definition run_texts (runs : value) : result string :=
  rbind (as_array runs) (fun l =>
  rbind (array_map (fun run => get run "text") l) (fun texts =>
  join "" texts)).

(** The second argument of [#setSetting]: declared [string], while the public
    setters declare and pass a [boolean]. *)
Inductive setting_value : Type :=
| SVString (s : string)
| SVBoolean (b : bool).

Definition sv_value (v : setting_value) : value :=
  match v with
  | SVString s => VStr s
  | SVBoolean b => VBool b
  end.

(** [ToPropertyKey] of a string or a boolean. *)
Definition property_key (v : setting_value) : string :=
  match v with
  | SVString s => s
  | SVBoolean true => "true"
  | SVBoolean false => "false"
  end.

(** [const values = { ON: true, OFF: false }]. *)
Definition values : list (string * bool) := [("ON", true); ("OFF", false)].

(** [Object.keys(values)]. *)
Definition available_options : value := VArr (map (fun kv => VStr (fst kv)) values).

Definition invalid_option (new_value : setting_value) : error :=
  InnertubeError "Invalid option"
    (VObj [("option", sv_value new_value); ("available_options", available_options)]).

(** A request handed to the dispatcher, by the method that receives it. *)
Inductive request : Type :=
| ReqChannel (type : string) (params : value)
| ReqBrowse (type : string) (args : value)
| ReqAccount (type : string) (args : value).

(** [Constants.ACCOUNT_SETTINGS]: the table is not part of this module. *)
Record AccountSettings : Type := {
  SUBSCRIPTIONS : string;
  RECOMMENDED_VIDEOS : string;
  CHANNEL_ACTIVITY : string;
  COMMENT_REPLIES : string;
  USER_MENTION : string;
  SHARED_CONTENT : string;
  SUBSCRIPTIONS_PRIVACY : string;
  PLAYLISTS_PRIVACY : string
}.

(** What [getInfo] returns. *)
Record Info : Type := {
  name : value;
  email : value;
  channel_id : value;
  subscriber_count : string;
  photo : value
}.

(** An entry of what [getTimeWatched] returns. *)
Record Stat : Type := {
  title : string;
  time : string
}.

Fixpoint somes {A} (l : list (option A)) : list A :=
  match l with
  | [] => []
  | Some a :: rest => a :: somes rest
  | None :: rest => somes rest
  end.

(** ** Node search

    [findNode] is imported from the utilities of the library; the account
    manager only calls it. *)

Module Utils.

Section NodeSearch.

(** The payload as a graph: a node gives its entries, the own properties of
    an object or the elements of an array under their indices, and nothing
    for a primitive.  Nothing is assumed of the graph: a node may be reached
    again from its own entries. *)
Variable Node : Type.
Variable entries : Node -> list (string * Node).

(** What the caller gets on a failed search for each value of the flag. *)
Variable Failure : Type.
Variable on_failure : bool -> Failure.

(** Modelled from the spec: "key-name lookup", a node has the target key
    when one of its entries goes by that name. *)
Definition has_key (target : string) (n : Node) : bool :=
  existsb (fun entry => String.eqb target (fst entry)) (entries n).

(** Modelled from the spec: "until a target key is found", the children are
    visited in order and the first one that finds ends the search; [None]
    when a visit did not finish. *)
Fixpoint first_found (visit : Node -> option (option Node)) (children : list Node)
  : option (option Node) :=
  match children with
  | [] => Some None
  | child :: rest =>
      match visit child with
      | None => None
      | Some (Some found) => Some (Some found)
      | Some None => first_found visit rest
      end
  end.

(** Modelled from the spec: the recursion of [findNode], whose code lies
    with the utilities, outside this module.  "Recurses through response payloads by key name
    until a target key is found or a depth limit is exceeded": a node that
    has the target key is the answer, otherwise the search goes on in the
    entries of the node, one level deeper, and a level beyond the limit is
    not searched.  [fuel] bounds the nesting of the calls, so that the
    recursion is written as the description gives it; [None] is a search cut
    short by the fuel. *)
Fixpoint search (fuel : nat) (target : string) (limit level : nat) (n : Node)
  : option (option Node) :=
  match fuel with
  | 0 => None
  | S fuel' =>
      if (limit <? level)%nat then Some None
      else if has_key target n then Some (Some n)
      else first_found (search fuel' target limit (S level)) (map snd (entries n))
  end.

(** Modelled from the spec: [findNode], "recursive key-name lookup through a
    nested, untyped response tree with a depth bound and failure flag".  The
    description does not say what the flag makes of a failure; that is
    [on_failure].  Of the two strings the callers pass, it speaks of the
    target key only. *)
Definition findNode (root : Node) (target : string) (limit : nat) (flag : bool)
  : option (Node + Failure) :=
  match search (limit + 2) target limit 0 root with
  | None => None
  | Some (Some found) => Some (inl found)
  | Some None => Some (inr (on_failure flag))
  end.

(** [within d n m]: [m] is [n] or lies at most [d] entries below it. *)
Inductive within : nat -> Node -> Node -> Prop :=
| within_here d n : within d n n
| within_child d n k child m :
    In (k, child) (entries n) -> within d child m -> within (S d) n m.

End NodeSearch.

Arguments has_key {Node} entries target n.
Arguments first_found {Node} visit children.
Arguments search {Node} entries fuel target limit level n.
Arguments findNode {Node} entries {Failure} on_failure root target limit flag.
Arguments within {Node} entries _ _ _.

(** Payload values as such a graph. *)
Fixpoint indexed (i : nat) (elems : list value) : list (string * value) :=
  match elems with
  | [] => []
  | x :: rest => (NilEmpty.string_of_uint (Nat.to_uint i), x) :: indexed (S i) rest
  end.

Definition value_entries (v : value) : list (string * value) :=
  match v with
  | VObj props => props
  | VArr elems => indexed 0 elems
  | _ => []
  end.

(** A payload that contains itself, as only an object built in memory can:
    the one node has an entry ["self"] that leads back to it. *)
Definition loop_entries (n : unit) : list (string * unit) := [("self", n)].

End Utils.

(** ** The dispatcher and the instance *)

(** The dispatcher: each method takes the request and answers with a
    promise, which resolves ([Ok]) or rejects ([Err]).  [World] is whatever
    lies behind it: its own state and the service. *)
Record Actions (World : Type) : Type := {
  channel : string -> value -> World -> result value * World;
  browse : string -> value -> World -> result value * World;
  account : string -> value -> World -> result value * World
}.
Arguments channel {World} _ _ _ _.
Arguments browse {World} _ _ _ _.
Arguments account {World} _ _ _ _.

(** The instance; its [channel] and [settings] are the methods below. *)
Record AccountManager (World : Type) : Type := { actions : Actions World }.
Arguments actions {World} _.

Definition constructor {World} (a : Actions World) : AccountManager World :=
  {| actions := a |}.

(** An operation runs on the instance and the world; [log] records the
    requests handed to the dispatcher, oldest first. *)
Record state (World : Type) : Type := {
  self : AccountManager World;
  world : World;
  log : list request
}.
Arguments self {World} _.
Arguments world {World} _.
Arguments log {World} _.

(** ** A sample service

    A dispatcher with canned answers, and stand-ins for the collaborators,
    on which the operations can be run. *)

Module Sample.

Definition settings : AccountSettings := {|
  SUBSCRIPTIONS := "SUBSCRIPTIONS";
  RECOMMENDED_VIDEOS := "RECOMMENDED_VIDEOS";
  CHANNEL_ACTIVITY := "CHANNEL_ACTIVITY";
  COMMENT_REPLIES := "COMMENT_REPLIES";
  USER_MENTION := "USER_MENTION";
  SHARED_CONTENT := "SHARED_CONTENT";
  SUBSCRIPTIONS_PRIVACY := "SUBSCRIPTIONS_PRIVACY";
  PLAYLISTS_PRIVACY := "PLAYLISTS_PRIVACY"
|}.

Definition text_runs (texts : list string) : value :=
  VObj [("runs", VArr (map (fun t => VObj [("text", VStr t)]) texts))].

Definition switch (client_id item_id : string) : value :=
  VObj [("settingsSwitchRenderer",
         VObj [("enableServiceEndpoint",
                VObj [("setSettingEndpoint",
                       VObj [("settingItemIdForClient", VStr client_id);
                             ("settingItemId", VStr item_id)])])])].

Definition settings_page : value :=
  VObj [("data",
         VObj [("contents",
                VArr [VObj [("title", text_runs ["Your preferences"]);
                            ("options",
                             VArr [switch "RECOMMENDED_VIDEOS" "11";
                                   switch "SUBSCRIPTIONS" "407";
                                   switch "SUBSCRIPTIONS" "999";
                                   switch "SUBSCRIPTIONS_PRIVACY" "77"])]])])].

Definition stat_row (title time : list string) : value :=
  VObj [("statRowRenderer",
         VObj [("title", text_runs title); ("contents", text_runs time)])].

Definition time_watched_page : value :=
  VObj [("data",
         VObj [("contents",
                VArr [VArr [stat_row ["Today"] ["1 hr"; " 5 min"];
                            VObj [("dividerRenderer", VObj [])];
                            stat_row ["Last 7 days"] ["9 hr"]]])])].

Definition profile : value :=
  VObj [("accountName", VStr "Sam");
        ("email", VStr "sam@example.org");
        ("accountPhoto", VObj [("thumbnails", VArr [VObj [("url", VStr "p.png")]])])].

Definition accounts_page : value :=
  VObj [("data",
         VObj [("contents",
                VArr [VObj [("accountItem",
                             VObj [("serviceEndpoint",
                                    VObj [("signInEndpoint",
                                           VObj [("directSigninUserProfile", profile)])]);
                                   ("accountByline", text_runs ["12"; " subscribers"])]);
                            ("accountSectionListRenderer",
                             VObj [("footers",
                                    VArr [VObj [("accountChannelRenderer",
                                                 VObj [("navigationEndpoint",
                                                        VObj [("browseEndpoint",
                                                               VObj [("browseId",
                                                                      VStr "UC0001")])])])]])])]])])].

Definition done : value := VObj [("success", VBool true)].

(** The world counts the requests served. *)
Definition actions : Actions nat := {|
  channel := fun _ _ w => (Ok done, S w);
  browse := fun type _ w =>
    (Ok (if String.eqb type "SPtime_watched" then time_watched_page
         else settings_page), S w);
  account := fun type _ w =>
    (Ok (if String.eqb type "account/accounts_list" then accounts_page else done),
     S w)
|}.

Definition start : state nat :=
  {| self := constructor actions; world := 0; log := [] |}.

(** Stand-in for [findNode]: the first entry of [data[key]]. *)
Definition findNode (data : value) (key target : string) (depth : Z) (safe : bool)
  : result value :=
  rbind (get data key) get0.

(** Stand-in for [throwIfMissing]: a parameter that is [undefined] or [null]
    is missing. *)
Definition throwIfMissing (params : value) : result unit :=
  match params with
  | VObj props =>
      if existsb (fun p => match snd p with
                           | VUndefined | VNull => true
                           | _ => false
                           end) props
      then Err (Foreign (VStr "missing parameter"))
      else Ok tt
  | _ => Ok tt
  end.


(** Stand-in for the conversion of a string to a number: the setting ids of
    the sample are no numerals. *)
Definition string_to_number (s : string) : string := "NaN".

(** A dispatcher that answers every request with the same page. *)
Definition actions_with (page : value) : Actions nat := {|
  channel := fun _ _ w => (Ok page, S w);
  browse := fun _ _ w => (Ok page, S w);
  account := fun _ _ w => (Ok page, S w)
|}.

Definition start_with (page : value) : state nat :=
  {| self := constructor (actions_with page); world := 0; log := [] |}.

(** A settings page whose first option is no switch. *)
Definition mixed_page : value :=
  VObj [("data",
         VObj [("contents",
                VArr [VObj [("options",
                             VArr [VObj [("settingsDividerRenderer", VObj [])];
                                   switch "SUBSCRIPTIONS" "407"])]])])].

(** An accounts page without an account item. *)
Definition empty_accounts_page : value :=
  VObj [("data", VObj [("contents", VArr [VObj []])])].

(** Stand-in for the encoding of the channel id. *)
Definition encode (channel_id : value) : result value :=
  rbind (to_string channel_id) (fun printed => Ok (VStr ("params:" ++ printed))).

End Sample.

(** ** The class *)

Section AccountManager.

Variable World : Type.

(** Collaborators that are not part of this module. *)
Variable Analytics : Type.
Variable new_Analytics : value -> result Analytics.
Variable findNode : value -> string -> string -> Z -> bool -> result value.
Variable throwIfMissing : value -> result unit.
Variable encodeChannelAnalyticsParams : value -> result value.
Variable ACCOUNT_SETTINGS : AccountSettings.

(** [StringToNumber] followed by [ToString]: only the comparison of a
    payload number or boolean with a setting id goes through it. *)
Variable string_to_number : string -> string.

Definition M (A : Type) : Type := state World -> result A * state World.

Definition ret {A} (a : A) : M A := fun st => (Ok a, st).

Definition throw {A} (e : error) : M A := fun st => (Err e, st).

Definition lift {A} (r : result A) : M A := fun st => (r, st).

Definition bind {A B} (m : M A) (k : A -> M B) : M B :=
  fun st =>
    match m st with
    | (Ok a, st') => k a st'
    | (Err e, st') => (Err e, st')
    end.

Notation "x <- m ;; k" := (bind m (fun x => k))
  (at level 61, m at next level, right associativity).

Definition dispatch (method : Actions World -> string -> value -> World -> result value * World)
    (req : request) (type : string) (args : value) : M value :=
  fun st =>
    let (out, w) := method (actions (self st)) type args (world st) in
    (out, {| self := self st; world := w; log := log st ++ [req] |}).

(** [this.#actions.channel(type, params)] and its siblings. *)
Definition actions_channel (type : string) (params : value) : M value :=
  dispatch channel (ReqChannel type params) type params.

Definition actions_browse (type : string) (args : value) : M value :=
  dispatch browse (ReqBrowse type args) type args.

Definition actions_account (type : string) (args : value) : M value :=
  dispatch account (ReqAccount type args) type args.

(** *** channel *)

Definition editName (new_name : string) : M value :=
  actions_channel "channel/edit_name" (VObj [("new_name", VStr new_name)]).

Definition editDescription (new_description : string) : M value :=
  actions_channel "channel/edit_description"
    (VObj [("new_description", VStr new_description)]).

(** *** #setSetting *)

(** [x == setting_id] with a string on the right; an array or an object is
    compared by the string it converts to, and the conversion may throw. *)
Definition loose_eq (x : value) (s : string) : result bool :=
  match x with
  | VUndefined | VNull => Ok false
  | VStr t => Ok (String.eqb t s)
  | VNum printed =>
      Ok (negb (String.eqb printed "NaN") && String.eqb printed (string_to_number s))
  | VBool b => Ok (String.eqb (if b then "1" else "0") (string_to_number s))
  | VArr _ | VObj _ => rbind (to_string x) (fun printed => Ok (String.eqb printed s))
  end.

Definition client_id_path : list string :=
  ["settingsSwitchRenderer"; "enableServiceEndpoint"; "setSettingEndpoint";
   "settingItemIdForClient"].

Definition item_id_path : list string :=
  ["settingsSwitchRenderer"; "enableServiceEndpoint"; "setSettingEndpoint";
   "settingItemId"].

(** The callback of [contents.find]. *)
Definition matches_setting (setting_id : string) (option : value) : result bool :=
  rbind (walk option client_id_path) (fun id => loose_eq id setting_id).

(** The [switch] on [type.trim()]. *)
Definition settings_contents (type : string) (response : value) : result value :=
  if String.eqb (trim type) "SPaccount_notifications" then
    rbind (get response "data") (fun data =>
    rbind (findNode data "contents" "Your preferences" 13 false) (fun node =>
    get node "options"))
  else if String.eqb (trim type) "SPaccount_privacy" then
    rbind (get response "data") (fun data =>
    rbind (findNode data "contents" "settingsSwitchRenderer" 13 false) (fun node =>
    get node "options"))
  else Err (TypeError "undefined is not a function").

(** [values[new_value]]. *)
Definition values_at (key : string) : value :=
  match assoc key values with
  | Some b => VBool b
  | None => VUndefined
  end.

(** [values.hasOwnProperty(new_value)]. *)
Definition values_has (key : string) : bool :=
  match assoc key values with
  | Some _ => true
  | None => false
  end.

Definition sent_value (type : string) (new_value : setting_value) : value :=
  if String.eqb type "SPaccount_privacy"
  then VBool (negb (truthy (values_at (property_key new_value))))
  else values_at (property_key new_value).

(** The object handed to [throwIfMissing]. *)
Definition checked_arguments (setting_id type : string) (new_value : setting_value) : value :=
  VObj [("setting_id", VStr setting_id); ("type", VStr type);
        ("new_value", sv_value new_value)].

(** The object handed to [actions.account] for [account/set_setting]. *)
Definition set_setting_args (type : string) (new_value : setting_value)
    (setting_item_id : value) : value :=
  VObj [("new_value", sent_value type new_value);
        ("setting_item_id", setting_item_id)].

Definition setSetting (setting_id type : string) (new_value : setting_value) : M value :=
  _ <- lift (throwIfMissing (checked_arguments setting_id type new_value)) ;;
  if negb (values_has (property_key new_value)) then
    throw (invalid_option new_value)
  else
    response <- actions_browse type VUndefined ;;
    contents <- lift (settings_contents type response) ;;
    options <- lift (as_array contents) ;;
    option <- lift (array_find (matches_setting setting_id) options) ;;
    setting_item_id <- lift (walk option item_id_path) ;;
    actions_account "account/set_setting"
      (set_setting_args type new_value setting_item_id).

(** *** settings.notifications and settings.privacy

    Each setter declares a [boolean] option, documents it as "ON | OFF", and
    hands it to [#setSetting] as it comes. *)

Definition setSubscriptions (option : setting_value) : M value :=
  setSetting (SUBSCRIPTIONS ACCOUNT_SETTINGS) "SPaccount_notifications" option.

Definition setRecommendedVideos (option : setting_value) : M value :=
  setSetting (RECOMMENDED_VIDEOS ACCOUNT_SETTINGS) "SPaccount_notifications" option.

Definition setChannelActivity (option : setting_value) : M value :=
  setSetting (CHANNEL_ACTIVITY ACCOUNT_SETTINGS) "SPaccount_notifications" option.

Definition setCommentReplies (option : setting_value) : M value :=
  setSetting (COMMENT_REPLIES ACCOUNT_SETTINGS) "SPaccount_notifications" option.

Definition setMentions (option : setting_value) : M value :=
  setSetting (USER_MENTION ACCOUNT_SETTINGS) "SPaccount_notifications" option.

Definition setSharedContent (option : setting_value) : M value :=
  setSetting (SHARED_CONTENT ACCOUNT_SETTINGS) "SPaccount_notifications" option.

Definition setSubscriptionsPrivate (option : setting_value) : M value :=
  setSetting (SUBSCRIPTIONS_PRIVACY ACCOUNT_SETTINGS) "SPaccount_privacy" option.

Definition setSavedPlaylistsPrivate (option : setting_value) : M value :=
  setSetting (PLAYLISTS_PRIVACY ACCOUNT_SETTINGS) "SPaccount_privacy" option.

(** *** getInfo *)

Definition profile_path : list string :=
  ["accountItem"; "serviceEndpoint"; "signInEndpoint"; "directSigninUserProfile"].

(** [response.data.contents[0].accountSectionListRenderer.footers[0]
    .accountChannelRenderer.navigationEndpoint.browseEndpoint.browseId]. *)
Definition footer_browse_id (response : value) : result value :=
  rbind (walk response ["data"; "contents"]) (fun contents =>
  rbind (get0 contents) (fun section =>
  rbind (walk section ["accountSectionListRenderer"; "footers"]) (fun footers =>
  rbind (get0 footers) (fun footer =>
  walk footer ["accountChannelRenderer"; "navigationEndpoint"; "browseEndpoint";
               "browseId"])))).

(** The body of [getInfo] after the response has arrived. *)
Definition info_of_response (response : value) : result Info :=
  rbind (get response "data") (fun data =>
  rbind (findNode data "contents" "accountItem" 8 false)
    (fun account_item_section_renderer =>
  rbind (walk account_item_section_renderer profile_path) (fun profile =>
  rbind (get profile "accountName") (fun name =>
  rbind (get profile "email") (fun email =>
  rbind (walk profile ["accountPhoto"; "thumbnails"]) (fun photo =>
  rbind (walk account_item_section_renderer ["accountItem"; "accountByline"; "runs"])
    (fun runs =>
  rbind (run_texts runs) (fun subscriber_count =>
  rbind (footer_browse_id response) (fun channel_id =>
  Ok {| name := name; email := email; channel_id := channel_id;
        subscriber_count := subscriber_count; photo := photo |}))))))))).

Definition getInfo : M Info :=
  response <- actions_account "account/accounts_list"
                (VObj [("client", VStr "ANDROID")]) ;;
  lift (info_of_response response).

(** *** getTimeWatched *)

(** The callback of [rows.map]: a record for a row whose [statRowRenderer]
    is truthy, [undefined] ([None]) for any other row. *)
Definition row_stat (row : value) : result (option Stat) :=
  rbind (get row "statRowRenderer") (fun renderer =>
  if truthy renderer then
    rbind (walk renderer ["title"; "runs"]) (fun title_runs =>
    rbind (run_texts title_runs) (fun title =>
    rbind (walk renderer ["contents"; "runs"]) (fun contents_runs =>
    rbind (run_texts contents_runs) (fun time =>
    Ok (Some {| title := title; time := time |})))))
  else Ok None).

Definition stats_of_response (response : value) : result (list Stat) :=
  rbind (get response "data") (fun data =>
  rbind (findNode data "contents" "statRowRenderer" 11 false) (fun rows =>
  rbind (as_array rows) (fun rows =>
  rbind (array_map row_stat rows) (fun stats =>
  Ok (somes stats))))).

Definition getTimeWatched : M (list Stat) :=
  response <- actions_browse "SPtime_watched" (VObj [("client", VStr "ANDROID")]) ;;
  lift (stats_of_response response).

(** *** getAnalytics *)

Definition getAnalytics : M Analytics :=
  info <- getInfo ;;
  params <- lift (encodeChannelAnalyticsParams (channel_id info)) ;;
  response <- actions_browse "FEanalytics_screen"
                (VObj [("params", params); ("client", VStr "ANDROID")]) ;;
  data <- lift (get response "data") ;;
  lift (new_Analytics data).

(** [channel.getBasicAnalytics: () => this.getAnalytics()]. *)
Definition getBasicAnalytics : M Analytics :=
  fun st => getAnalytics st.

(** *** The public operations, and running a sequence of them *)

Inductive setter : Type :=
| SetSubscriptions
| SetRecommendedVideos
| SetChannelActivity
| SetCommentReplies
| SetMentions
| SetSharedContent
| SetSubscriptionsPrivate
| SetSavedPlaylistsPrivate.

Definition run_setter (s : setter) : setting_value -> M value :=
  match s with
  | SetSubscriptions => setSubscriptions
  | SetRecommendedVideos => setRecommendedVideos
  | SetChannelActivity => setChannelActivity
  | SetCommentReplies => setCommentReplies
  | SetMentions => setMentions
  | SetSharedContent => setSharedContent
  | SetSubscriptionsPrivate => setSubscriptionsPrivate
  | SetSavedPlaylistsPrivate => setSavedPlaylistsPrivate
  end.

Definition setter_id (s : setter) : string :=
  match s with
  | SetSubscriptions => SUBSCRIPTIONS ACCOUNT_SETTINGS
  | SetRecommendedVideos => RECOMMENDED_VIDEOS ACCOUNT_SETTINGS
  | SetChannelActivity => CHANNEL_ACTIVITY ACCOUNT_SETTINGS
  | SetCommentReplies => COMMENT_REPLIES ACCOUNT_SETTINGS
  | SetMentions => USER_MENTION ACCOUNT_SETTINGS
  | SetSharedContent => SHARED_CONTENT ACCOUNT_SETTINGS
  | SetSubscriptionsPrivate => SUBSCRIPTIONS_PRIVACY ACCOUNT_SETTINGS
  | SetSavedPlaylistsPrivate => PLAYLISTS_PRIVACY ACCOUNT_SETTINGS
  end.

Definition setter_type (s : setter) : string :=
  match s with
  | SetSubscriptionsPrivate | SetSavedPlaylistsPrivate => "SPaccount_privacy"
  | _ => "SPaccount_notifications"
  end.

Inductive operation : Type :=
| OpEditName (new_name : string)
| OpEditDescription (new_description : string)
| OpGetBasicAnalytics
| OpSet (s : setter) (option : setting_value)
| OpGetInfo
| OpGetTimeWatched
| OpGetAnalytics.

(** Runs an operation and forgets what it settled with. *)
Definition settle {A} (m : M A) : state World -> state World := fun st => snd (m st).

Definition perform (op : operation) : state World -> state World :=
  match op with
  | OpEditName new_name => settle (editName new_name)
  | OpEditDescription new_description => settle (editDescription new_description)
  | OpGetBasicAnalytics => settle getBasicAnalytics
  | OpSet s option => settle (run_setter s option)
  | OpGetInfo => settle getInfo
  | OpGetTimeWatched => settle getTimeWatched
  | OpGetAnalytics => settle getAnalytics
  end.

Definition perform_all (ops : list operation) (st : state World) : state World :=
  fold_left (fun st op => perform op st) ops st.

(** *** Notions the properties are stated with *)

(** The rows of the response against the records returned, as the
    description states it: a row whose [statRowRenderer] is there (truthy)
    gives the next record, made of the joined run texts of the renderer's
    [title] and [contents]; any other row gives none. *)
Inductive rows_stats : list value -> list Stat -> Prop :=
| rows_done : rows_stats [] []
| rows_kept row rows stats renderer title_runs title_texts contents_runs contents_texts
    title time :
    get row "statRowRenderer" = Ok renderer ->
    truthy renderer = true ->
    walk renderer ["title"; "runs"] = Ok (VArr title_runs) ->
    array_map (fun run => get run "text") title_runs = Ok title_texts ->
    walk renderer ["contents"; "runs"] = Ok (VArr contents_runs) ->
    array_map (fun run => get run "text") contents_runs = Ok contents_texts ->
    join "" title_texts = Ok title ->
    join "" contents_texts = Ok time ->
    rows_stats rows stats ->
    rows_stats (row :: rows) ({| title := title; time := time |} :: stats)
| rows_dropped row rows stats renderer :
    get row "statRowRenderer" = Ok renderer ->
    truthy renderer = false ->
    rows_stats rows stats ->
    rows_stats (row :: rows) stats.

(** [steady m]: running [m] keeps the instance and only appends to the log. *)
Definition steady {A} (m : M A) : Prop :=
  forall st, self (snd (m st)) = self st
             /\ exists tr, log (snd (m st)) = log st ++ tr.

(** From the settings page to the item id: the [switch], [contents.find]
    and the read of [settingItemId]. *)
Definition pick_item (setting_id type : string) (response : value) : result value :=
  rbind (settings_contents type response) (fun contents =>
  rbind (as_array contents) (fun options =>
  rbind (array_find (matches_setting setting_id) options) (fun option =>
  walk option item_id_path))).

(** The second argument the setters of a group hand to [findNode]. *)
Definition setter_target (s : setter) : string :=
  match s with
  | SetSubscriptionsPrivate | SetSavedPlaylistsPrivate => "settingsSwitchRenderer"
  | _ => "Your preferences"
  end.

Definition accounts_list_args : value := VObj [("client", VStr "ANDROID")].

Definition analytics_screen_args (params : value) : value :=
  VObj [("params", params); ("client", VStr "ANDROID")].

(** [undefined] or [null]: the values a property read throws on. *)
Definition nullish (v : value) : bool :=
  match v with
  | VUndefined | VNull => true
  | _ => false
  end.

(** A run whose [text] can be read (the run is not [null]) and printed. *)
Definition readable_run (run : value) : bool :=
  match get run "text" with
  | Ok text => printable text
  | Err _ => false
  end.

(** What [runs.map((run) => run.text).join("")] needs: an array of such
    runs. *)
Definition texts_readable (runs : value) : bool :=
  match runs with
  | VArr l => forallb readable_run l
  | _ => false
  end.

(** [renderer[k].runs] can be read and mapped. *)
Definition runs_readable (renderer : value) (k : string) : bool :=
  match walk renderer [k; "runs"] with
  | Ok runs => texts_readable runs
  | Err _ => false
  end.

(** A row the callback of [rows.map] gets through: it is not [null], and
    when its [statRowRenderer] is truthy the runs of the renderer's [title]
    and [contents] can be read. *)
Definition row_well_formed (row : value) : bool :=
  match get row "statRowRenderer" with
  | Ok renderer =>
      if truthy renderer
      then runs_readable renderer "title" && runs_readable renderer "contents"
      else true
  | Err _ => false
  end.

(** The row has a truthy [statRowRenderer]. *)
Definition shows_renderer (row : value) : bool :=
  match get row "statRowRenderer" with
  | Ok renderer => truthy renderer
  | Err _ => false
  end.

(** The two requests of [#setSetting]. *)
Definition page_request (type : string) : request := ReqBrowse type VUndefined.

Definition set_setting_request (type : string) (new_value : setting_value)
    (item : value) : request :=
  ReqAccount "account/set_setting" (set_setting_args type new_value item).

(** The state after the page of [#setSetting] has been fetched. *)
Definition after_page (type : string) (st : state World) : state World :=
  {| self := self st;
     world := snd (browse (actions (self st)) type VUndefined (world st));
     log := log st ++ [page_request type] |}.

(** What a call settles with when it hands the dispatcher the browse of the
    page and then [account/set_setting] with [args]: the answer to the
    second request, in the world the two requests leave. *)
Definition both_requests (type : string) (args : value) (st : state World)
  : result value * state World :=
  let page := browse (actions (self st)) type VUndefined (world st) in
  let answer := account (actions (self st)) "account/set_setting" args (snd page) in
  (fst answer,
   {| self := self st; world := snd answer;
      log := log st ++ [ReqBrowse type VUndefined;
                        ReqAccount "account/set_setting" args] |}).

(** The response holds an item for the setting: the node [findNode] returns
    for [target] has [options], the first of them whose
    [settingItemIdForClient] [==] the setting id is found without a throw,
    and [item] is its [settingItemId]. *)
Definition page_item (setting_id target : string) (response item : value) : Prop :=
  exists data node before chosen after client_id,
    get response "data" = Ok data
    /\ findNode data "contents" target 13 false = Ok node
    /\ get node "options" = Ok (VArr (before ++ chosen :: after))
    /\ Forall (fun o => exists id, walk o client_id_path = Ok id
                                   /\ loose_eq id setting_id = Ok false) before
    /\ walk chosen client_id_path = Ok client_id
    /\ loose_eq client_id setting_id = Ok true
    /\ walk chosen item_id_path = Ok item.

(** ** Properties *)

(** *** Reasoning about the monads *)

Lemma rbind_ok_inv {A B} (r : result A) (k : A -> result B) (b : B) :
  rbind r k = Ok b -> exists a, r = Ok a /\ k a = Ok b.
Proof.
  destruct r as [a|e]; simpl; intros H; [eauto | discriminate].
Qed.

(** *** ToString *)

Lemma strings_of_error l e :
  (forall x e', In x l -> to_string x = Err e' -> e' = RuntimeTypeError) ->
  strings_of l = Err e -> e = RuntimeTypeError.
Proof.
  induction l as [|x rest IH]; simpl; intros Hx H; [discriminate |].
  destruct (elem_string x) as [t|e'] eqn:Helem; simpl in H.
  - destruct (strings_of rest) as [ss|e''] eqn:Hrest; simpl in H; [discriminate |].
    inversion H; subst e''.
    apply IH; [intros y e1 Hy; apply (Hx y); right; exact Hy | reflexivity].
  - inversion H; subst e'. apply (Hx x); [left; reflexivity |].
    destruct x; simpl in Helem; try discriminate; exact Helem.
Qed.

Lemma to_string_array elems : to_string (VArr elems) = join "," elems.
Proof.
  reflexivity.
Qed.

Lemma to_string_error : forall v e, to_string v = Err e -> e = RuntimeTypeError.
Proof.
  fix IH 1. intros v e. destruct v as [| | [|] | printed | t | elems | props];
    try discriminate.
  - rewrite to_string_array. unfold join.
    destruct (strings_of elems) as [ss|e'] eqn:Hss; simpl; [discriminate |].
    intros H. inversion H; subst e'.
    apply (strings_of_error elems); [| exact Hss].
    clear Hss H. induction elems as [|x rest IHl]; intros y e' Hy; destruct Hy.
    + subst y. apply IH.
    + apply IHl. assumption.
  - simpl. destruct (assoc "toString" props); intros H; inversion H; reflexivity.
Qed.

Lemma strings_of_ok_iff l :
  (forall x, In x l -> ((exists t, to_string x = Ok t) <-> printable x = true)) ->
  ((exists ss, strings_of l = Ok ss) <-> forallb printable l = true).
Proof.
  induction l as [|x rest IH]; simpl; intros Hx.
  - split; eauto.
  - rewrite andb_true_iff, <- IH by auto. rewrite <- (Hx x) by auto. split.
    + intros (ss & H).
      destruct (elem_string x) as [t|] eqn:Helem; simpl in H; [| discriminate].
      destruct (strings_of rest) as [ss'|]; simpl in H; [| discriminate].
      split; [| eauto].
      destruct x; simpl in *; eauto.
    + intros ((t & Ht) & (ss & Hss)). rewrite Hss.
      assert (Helem : exists t', elem_string x = Ok t').
      { destruct x; simpl in *; eauto. }
      destruct Helem as (t' & ->). simpl. eauto.
Qed.

Lemma printable_array elems : printable (VArr elems) = forallb printable elems.
Proof.
  reflexivity.
Qed.

Lemma to_string_ok_iff : forall v, (exists t, to_string v = Ok t) <-> printable v = true.
Proof.
  fix IH 1. intros v. destruct v as [| | [|] | printed | t | elems | props];
    try solve [simpl; split; eauto].
  - rewrite to_string_array, printable_array. unfold join.
    rewrite <- strings_of_ok_iff.
    + split.
      * intros (t & H). destruct (strings_of elems); simpl in H; [eauto | discriminate].
      * intros (ss & ->). simpl. eauto.
    + induction elems as [|x rest IHl]; intros y Hy; destruct Hy.
      * subst y. apply IH.
      * apply IHl. assumption.
  - simpl. destruct (assoc "toString" props); split; eauto; try discriminate.
    intros (t & H). discriminate.
Qed.

Lemma bind_ok_inv {A B} (m : M A) (k : A -> M B) st b st' :
  bind m k st = (Ok b, st') ->
  exists a st1, m st = (Ok a, st1) /\ k a st1 = (Ok b, st').
Proof.
  unfold bind. destruct (m st) as [[a|e] st1]; intros H.
  - eauto.
  - discriminate.
Qed.

Lemma lift_ok_inv {A} (r : result A) st a st' :
  lift r st = (Ok a, st') -> r = Ok a /\ st' = st.
Proof.
  unfold lift. intros H. inversion H. auto.
Qed.

Lemma dispatch_run method req type args st :
  dispatch method req type args st =
  (fst (method (actions (self st)) type args (world st)),
   {| self := self st;
      world := snd (method (actions (self st)) type args (world st));
      log := log st ++ [req] |}).
Proof.
  unfold dispatch. destruct (method _ _ _ _); reflexivity.
Qed.

Lemma dispatch_ok_inv method req type args st a st' :
  dispatch method req type args st = (Ok a, st') ->
  method (actions (self st)) type args (world st) = (Ok a, world st')
  /\ self st' = self st /\ log st' = log st ++ [req].
Proof.
  rewrite dispatch_run. intros H. inversion H as [[Ha Hst]]. simpl.
  destruct (method _ _ _ _); simpl in *; subst; auto.
Qed.

(** *** channel.editName and channel.editDescription *)

(** C5: [editName] and [editDescription] each hand the dispatcher's [channel]
    method one request, with the type string ["channel/edit_name"] and the
    object [{ new_name }] (resp. ["channel/edit_description"] and
    [{ new_description }]), and settle with whatever that call settles with:
    nothing else is dispatched and the instance is left as it was. *)
Theorem channel_edit_dispatches_once :
  forall (text : string) (st : state World),
    let name_params := VObj [("new_name", VStr text)] in
    let description_params := VObj [("new_description", VStr text)] in
    let answer type params := channel (actions (self st)) type params (world st) in
    editName text st =
      (fst (answer "channel/edit_name" name_params),
       {| self := self st;
          world := snd (answer "channel/edit_name" name_params);
          log := log st ++ [ReqChannel "channel/edit_name" name_params] |})
    /\ editDescription text st =
      (fst (answer "channel/edit_description" description_params),
       {| self := self st;
          world := snd (answer "channel/edit_description" description_params);
          log := log st ++ [ReqChannel "channel/edit_description" description_params] |}).
Proof.
  intros text st; cbv zeta; split.
  - unfold editName, actions_channel. apply dispatch_run.
  - unfold editDescription, actions_channel. apply dispatch_run.
Qed.

(** *** getInfo *)

Lemma strings_of_strings (texts : list string) :
  strings_of (map VStr texts) = Ok texts.
Proof.
  induction texts as [|t texts IH]; simpl; [reflexivity |].
  rewrite IH. reflexivity.
Qed.

Lemma join_strings (sep : string) (texts : list string) :
  join sep (map VStr texts) = Ok (String.concat sep texts).
Proof.
  unfold join. rewrite strings_of_strings. reflexivity.
Qed.

(** C6: when [getInfo] resolves, it has sent the one request
    [account/accounts_list] and its record (fields [name], [email],
    [channel_id], [subscriber_count], [photo]) is read off the response:
    [name], [email] and [photo] from the [directSigninUserProfile] under the
    [accountItem] of the node that [findNode] returns, [subscriber_count] by
    joining the [text]s of the [accountByline] runs, [channel_id] from the
    [browseId] of the first footer of the first entry of [data.contents]. *)
Theorem getInfo_projects_response :
  forall (st st' : state World) (info : Info),
    getInfo st = (Ok info, st') ->
    exists response data node profile runs texts contents section footers footer,
      account (actions (self st)) "account/accounts_list"
        (VObj [("client", VStr "ANDROID")]) (world st) = (Ok response, world st')
      /\ log st' = log st ++ [ReqAccount "account/accounts_list"
                                (VObj [("client", VStr "ANDROID")])]
      /\ get response "data" = Ok data
      /\ findNode data "contents" "accountItem" 8 false = Ok node
      /\ walk node ["accountItem"; "serviceEndpoint"; "signInEndpoint";
                    "directSigninUserProfile"] = Ok profile
      /\ get profile "accountName" = Ok (name info)
      /\ get profile "email" = Ok (email info)
      /\ walk profile ["accountPhoto"; "thumbnails"] = Ok (photo info)
      /\ walk node ["accountItem"; "accountByline"; "runs"] = Ok (VArr runs)
      /\ array_map (fun run => get run "text") runs = Ok texts
      /\ join "" texts = Ok (subscriber_count info)
      /\ (forall strings, texts = map VStr strings ->
            subscriber_count info = String.concat "" strings)
      /\ walk data ["contents"] = Ok contents
      /\ get0 contents = Ok section
      /\ walk section ["accountSectionListRenderer"; "footers"] = Ok footers
      /\ get0 footers = Ok footer
      /\ walk footer ["accountChannelRenderer"; "navigationEndpoint";
                      "browseEndpoint"; "browseId"] = Ok (channel_id info).
Proof.
  intros st st' info H.
  unfold getInfo, actions_account in H.
  apply bind_ok_inv in H. destruct H as (response & st1 & Hreq & H).
  apply dispatch_ok_inv in Hreq. destruct Hreq as (Hreq & _ & Hlog).
  apply lift_ok_inv in H. destruct H as (H & ->).
  unfold info_of_response in H.
  apply rbind_ok_inv in H. destruct H as (data & Hdata & H).
  apply rbind_ok_inv in H. destruct H as (node & Hnode & H).
  apply rbind_ok_inv in H. destruct H as (profile & Hprofile & H).
  apply rbind_ok_inv in H. destruct H as (nm & Hname & H).
  apply rbind_ok_inv in H. destruct H as (em & Hemail & H).
  apply rbind_ok_inv in H. destruct H as (ph & Hphoto & H).
  apply rbind_ok_inv in H. destruct H as (runs & Hruns & H).
  apply rbind_ok_inv in H. destruct H as (count & Hcount & H).
  apply rbind_ok_inv in H. destruct H as (cid & Hcid & H).
  inversion H; subst info; clear H; simpl.
  unfold run_texts in Hcount.
  apply rbind_ok_inv in Hcount. destruct Hcount as (run_list & Harr & Hcount).
  apply rbind_ok_inv in Hcount. destruct Hcount as (texts & Htexts & Hcount).
  destruct runs; simpl in Harr; try discriminate. inversion Harr; subst run_list.
  unfold footer_browse_id in Hcid.
  apply rbind_ok_inv in Hcid. destruct Hcid as (contents & Hcontents & Hcid).
  apply rbind_ok_inv in Hcid. destruct Hcid as (section & Hsection & Hcid).
  apply rbind_ok_inv in Hcid. destruct Hcid as (footers & Hfooters & Hcid).
  apply rbind_ok_inv in Hcid. destruct Hcid as (footer & Hfooter & Hcid).
  assert (Hc : walk data ["contents"] = Ok contents).
  { simpl in Hcontents. rewrite Hdata in Hcontents. exact Hcontents. }
  exists response, data, node, profile, elems, texts, contents, section, footers, footer.
  repeat split; try assumption.
  intros strings ->. rewrite join_strings in Hcount. inversion Hcount. reflexivity.
Qed.

(** *** getTimeWatched *)

Lemma run_texts_ok_inv runs text :
  run_texts runs = Ok text ->
  exists run_list texts,
    runs = VArr run_list
    /\ array_map (fun run => get run "text") run_list = Ok texts
    /\ join "" texts = Ok text.
Proof.
  unfold run_texts. intros H.
  apply rbind_ok_inv in H. destruct H as (run_list & Harr & H).
  apply rbind_ok_inv in H. destruct H as (texts & Htexts & H).
  destruct runs; simpl in Harr; try discriminate. inversion Harr; subst.
  eauto.
Qed.

Lemma array_map_row_stat rows :
  forall stats, array_map row_stat rows = Ok stats -> rows_stats rows (somes stats).
Proof.
  induction rows as [|row rows IH]; simpl; intros stats H.
  - inversion H. constructor.
  - apply rbind_ok_inv in H. destruct H as (stat & Hrow & H).
    apply rbind_ok_inv in H. destruct H as (rest & Hrest & H).
    inversion H; subst stats; clear H.
    specialize (IH _ Hrest).
    unfold row_stat in Hrow.
    apply rbind_ok_inv in Hrow. destruct Hrow as (renderer & Hrenderer & Hrow).
    destruct (truthy renderer) eqn:Htruthy.
    + apply rbind_ok_inv in Hrow. destruct Hrow as (title_runs & Htr & Hrow).
      apply rbind_ok_inv in Hrow. destruct Hrow as (title_text & Htt & Hrow).
      apply rbind_ok_inv in Hrow. destruct Hrow as (contents_runs & Hcr & Hrow).
      apply rbind_ok_inv in Hrow. destruct Hrow as (time_text & Hct & Hrow).
      inversion Hrow; subst stat; clear Hrow.
      apply run_texts_ok_inv in Htt. destruct Htt as (tl & tt & -> & Htt & Hjt).
      apply run_texts_ok_inv in Hct. destruct Hct as (cl & ct & -> & Hct & Hjc).
      simpl. eapply rows_kept; eauto.
    + inversion Hrow; subst stat. simpl. eapply rows_dropped; eauto.
Qed.

(** C7: when [getTimeWatched] resolves, it has sent the one browse request
    [SPtime_watched], the node that [findNode] returns for
    ["statRowRenderer"] is an array of rows, and the records returned are
    those of the rows that have a [statRowRenderer], in the order of the
    rows; the other rows are dropped. *)
Theorem getTimeWatched_rows :
  forall (st st' : state World) (stats : list Stat),
    getTimeWatched st = (Ok stats, st') ->
    exists response data rows,
      browse (actions (self st)) "SPtime_watched"
        (VObj [("client", VStr "ANDROID")]) (world st) = (Ok response, world st')
      /\ log st' = log st ++ [ReqBrowse "SPtime_watched"
                                (VObj [("client", VStr "ANDROID")])]
      /\ get response "data" = Ok data
      /\ findNode data "contents" "statRowRenderer" 11 false = Ok (VArr rows)
      /\ rows_stats rows stats.
Proof.
  intros st st' stats H.
  unfold getTimeWatched, actions_browse in H.
  apply bind_ok_inv in H. destruct H as (response & st1 & Hreq & H).
  apply dispatch_ok_inv in Hreq. destruct Hreq as (Hreq & _ & Hlog).
  apply lift_ok_inv in H. destruct H as (H & ->).
  unfold stats_of_response in H.
  apply rbind_ok_inv in H. destruct H as (data & Hdata & H).
  apply rbind_ok_inv in H. destruct H as (node & Hnode & H).
  apply rbind_ok_inv in H. destruct H as (rows & Hrows & H).
  apply rbind_ok_inv in H. destruct H as (mapped & Hmapped & H).
  inversion H; subst stats; clear H.
  destruct node; simpl in Hrows; try discriminate. inversion Hrows; subst rows.
  exists response, data, elems. repeat split; try assumption.
  apply array_map_row_stat. exact Hmapped.
Qed.

(** *** What every operation leaves alone *)

Lemma steady_ret {A} (a : A) : steady (ret a).
Proof. intros st; simpl; split; [reflexivity | exists []; now rewrite app_nil_r]. Qed.

Lemma steady_throw {A} (e : error) : steady (@throw A e).
Proof. intros st; simpl; split; [reflexivity | exists []; now rewrite app_nil_r]. Qed.

Lemma steady_lift {A} (r : result A) : steady (lift r).
Proof. intros st; simpl; split; [reflexivity | exists []; now rewrite app_nil_r]. Qed.

Lemma steady_dispatch method req type args : steady (dispatch method req type args).
Proof.
  intros st. rewrite dispatch_run. simpl. split; [reflexivity | eauto].
Qed.

Lemma steady_bind {A B} (m : M A) (k : A -> M B) :
  steady m -> (forall a, steady (k a)) -> steady (bind m k).
Proof.
  intros Hm Hk st. unfold bind.
  destruct (Hm st) as (Hself & tr & Hlog).
  destruct (m st) as [[a|e] st1]; simpl in *.
  - destruct (Hk a st1) as (Hself' & tr' & Hlog').
    split; [congruence |].
    exists (tr ++ tr'). rewrite Hlog', Hlog. now rewrite app_assoc.
  - split; [assumption | eauto].
Qed.

Create HintDb steady.
#[local] Hint Resolve steady_ret steady_throw steady_lift steady_dispatch : steady.

Ltac steady :=
  repeat first
    [ apply steady_bind; [| intros ?]
    | solve [auto with steady]
    | match goal with |- steady (if ?b then _ else _) => destruct b end ].

Lemma steady_setSetting setting_id type new_value :
  steady (setSetting setting_id type new_value).
Proof. unfold setSetting, actions_browse, actions_account. steady. Qed.

Lemma steady_getInfo : steady getInfo.
Proof. unfold getInfo, actions_account. steady. Qed.

Lemma steady_getTimeWatched : steady getTimeWatched.
Proof. unfold getTimeWatched, actions_browse. steady. Qed.

Lemma steady_getAnalytics : steady getAnalytics.
Proof.
  unfold getAnalytics, actions_browse.
  apply steady_bind; [apply steady_getInfo | intros ?]. steady.
Qed.

Lemma steady_run_setter s option : steady (run_setter s option).
Proof. destruct s; apply steady_setSetting. Qed.

Lemma steady_perform op st :
  self (perform op st) = self st /\ exists tr, log (perform op st) = log st ++ tr.
Proof.
  destruct op; unfold perform, settle.
  - apply (steady_dispatch channel).
  - apply (steady_dispatch channel).
  - apply steady_getAnalytics.
  - apply steady_run_setter.
  - apply steady_getInfo.
  - apply steady_getTimeWatched.
  - apply steady_getAnalytics.
Qed.

(** C10: every public operation, and so every sequence of them, ends with
    the instance it started with: the [#actions] field, the only state the
    instance has, still holds the dispatcher given to the constructor, and
    the requests of the sequence are appended to those made before. *)
Theorem operations_keep_the_instance :
  forall (a : Actions World) (w : World) (made : list request) (ops : list operation),
    let st := {| self := constructor a; world := w; log := made |} in
    self (perform_all ops st) = constructor a
    /\ actions (self (perform_all ops st)) = a
    /\ (forall op, self (perform op (perform_all ops st)) = constructor a)
    /\ exists tr, log (perform_all ops st) = made ++ tr.
Proof.
  intros a w made ops st.
  assert (H : self (perform_all ops st) = self st
              /\ exists tr, log (perform_all ops st) = log st ++ tr).
  { generalize st. clear st. unfold perform_all.
    induction ops as [|op ops IH]; intros st; simpl.
    - split; [reflexivity | exists []; now rewrite app_nil_r].
    - destruct (steady_perform op st) as (Hop & tr & Hlog).
      destruct (IH (perform op st)) as (H1 & tr' & H2).
      split; [congruence |].
      exists (tr ++ tr'). rewrite H2, Hlog. now rewrite app_assoc. }
  destruct H as (Hself & Hlog). simpl in Hself, Hlog.
  repeat split.
  - exact Hself.
  - rewrite Hself. reflexivity.
  - intros op. destruct (steady_perform op (perform_all ops st)) as (Hop & _).
    congruence.
  - exact Hlog.
Qed.

(** *** #setSetting *)

Lemma values_has_iff new_value :
  values_has (property_key new_value) = true
  <-> new_value = SVString "ON" \/ new_value = SVString "OFF".
Proof.
  unfold values_has, property_key, values.
  destruct new_value as [s|[|]]; simpl.
  - destruct (String.eqb_spec s "ON") as [->|Hon]; [intuition |].
    destruct (String.eqb_spec s "OFF") as [->|Hoff]; [intuition |].
    split; [discriminate |].
    intros [H|H]; inversion H; contradiction.
  - split; [discriminate | intros [H|H]; discriminate].
  - split; [discriminate | intros [H|H]; discriminate].
Qed.

Lemma app_eq_self {A} (l tr : list A) : l ++ tr = l -> tr = [].
Proof.
  intros H. apply (app_inv_head l). now rewrite app_nil_r.
Qed.



Lemma setSetting_run setting_id type new_value st :
  setSetting setting_id type new_value st =
  match throwIfMissing (checked_arguments setting_id type new_value) with
  | Err e => (Err e, st)
  | Ok _ =>
      if values_has (property_key new_value) then
        let page := browse (actions (self st)) type VUndefined (world st) in
        let st1 := {| self := self st; world := snd page;
                      log := log st ++ [ReqBrowse type VUndefined] |} in
        match rbind (fst page) (pick_item setting_id type) with
        | Err e => (Err e, st1)
        | Ok item =>
            let args := set_setting_args type new_value item in
            let answer :=
              account (actions (self st)) "account/set_setting" args (snd page) in
            (fst answer,
             {| self := self st; world := snd answer;
                log := (log st ++ [ReqBrowse type VUndefined])
                       ++ [ReqAccount "account/set_setting" args] |})
        end
      else (Err (invalid_option new_value), st)
  end.
Proof.
  unfold setSetting, bind, lift, throw, actions_browse, actions_account, dispatch,
    pick_item.
  destruct (throwIfMissing _) as [[]|e]; [| reflexivity].
  destruct (values_has _); [| reflexivity]. cbv beta iota zeta delta [negb].
  destruct (browse _ _ _ _) as [[response|e] w]; [| reflexivity].
  cbn [fst snd rbind self world log].
  destruct (settings_contents type response) as [contents|e]; [| reflexivity].
  cbn [rbind].
  destruct (as_array contents) as [options|e]; [| reflexivity].
  cbn [rbind].
  destruct (array_find _ options) as [option|e]; [| reflexivity].
  cbn [rbind].
  destruct (walk option item_id_path) as [item|e]; [| reflexivity].
  unfold set_setting_args.
  destruct (account _ _ _ _) as [answer w2]. reflexivity.
Qed.

(** The one way an account request leaves [#setSetting]. *)
Lemma setSetting_account_request setting_id type new_value st tr t args :
  log (snd (setSetting setting_id type new_value st)) = log st ++ tr ->
  In (ReqAccount t args) tr ->
  exists response item,
    fst (browse (actions (self st)) type VUndefined (world st)) = Ok response
    /\ pick_item setting_id type response = Ok item
    /\ values_has (property_key new_value) = true
    /\ t = "account/set_setting"
    /\ args = set_setting_args type new_value item
    /\ tr = [ReqBrowse type VUndefined; ReqAccount t args].
Proof.
  rewrite setSetting_run. intros Hlog Hin.
  assert (Hnone : forall l : list request, l = log st ++ tr -> l = log st -> False).
  { intros l -> Hl. apply app_eq_self in Hl. subst tr. destruct Hin. }
  destruct (throwIfMissing _) as [[]|e]; [| exfalso; eapply Hnone; eauto].
  destruct (values_has _) eqn:Hhas; [| exfalso; eapply Hnone; eauto].
  cbv zeta in Hlog.
  destruct (fst (browse _ _ _ _)) as [response|e] eqn:Hpage; simpl rbind in Hlog.
  - destruct (pick_item setting_id type response) as [item|e] eqn:Hitem;
      simpl in Hlog.
    + rewrite <- app_assoc in Hlog. apply app_inv_head in Hlog. subst tr.
      simpl in Hin. destruct Hin as [Hin|[Hin|[]]]; [discriminate |].
      inversion Hin; subst t args.
      exists response, item. repeat split; assumption || reflexivity.
    + apply app_inv_head in Hlog. subst tr.
      destruct Hin as [Hin|[]]. discriminate.
  - simpl in Hlog. apply app_inv_head in Hlog. subst tr.
    destruct Hin as [Hin|[]]. discriminate.
Qed.

Lemma array_find_first p l x :
  array_find p l = Ok x ->
  (exists before after,
      l = before ++ x :: after
      /\ Forall (fun o => p o = Ok false) before
      /\ p x = Ok true)
  \/ (x = VUndefined /\ Forall (fun o => p o = Ok false) l).
Proof.
  induction l as [|y l IH]; simpl; intros H.
  - inversion H. right. split; constructor.
  - apply rbind_ok_inv in H. destruct H as ([|] & Hy & H).
    + inversion H; subst y. left. exists [], l. repeat split; auto.
    + destruct (IH H) as [(before & after & -> & Hbefore & Hx)|(-> & Hall)].
      * left. exists (y :: before), after. repeat split; auto.
      * right. split; auto.
Qed.

Lemma matches_setting_inv setting_id option hit :
  matches_setting setting_id option = Ok hit ->
  exists id, walk option client_id_path = Ok id /\ loose_eq id setting_id = Ok hit.
Proof.
  unfold matches_setting. intros H.
  apply rbind_ok_inv in H. destruct H as (id & Hid & H). eauto.
Qed.

Lemma setter_contents s response contents :
  settings_contents (setter_type s) response = Ok contents ->
  exists data node,
    get response "data" = Ok data
    /\ findNode data "contents" (setter_target s) 13 false = Ok node
    /\ get node "options" = Ok contents.
Proof.
  unfold settings_contents.
  destruct s; simpl; intros H;
    apply rbind_ok_inv in H; destruct H as (data & Hdata & H);
    apply rbind_ok_inv in H; destruct H as (node & Hnode & H); eauto.
Qed.

Lemma array_find_hit p before chosen after :
  Forall (fun o => p o = Ok false) before ->
  p chosen = Ok true ->
  array_find p (before ++ chosen :: after) = Ok chosen.
Proof.
  induction 1 as [|o l Ho _ IH]; simpl; intros Hhit.
  - rewrite Hhit. reflexivity.
  - rewrite Ho. simpl. auto.
Qed.

(** The page search of [#setSetting] by the trimmed type. *)
Lemma pick_item_of_page setting_id type target response item :
  trim type = "SPaccount_notifications" /\ target = "Your preferences"
  \/ trim type = "SPaccount_privacy" /\ target = "settingsSwitchRenderer" ->
  page_item setting_id target response item ->
  pick_item setting_id type response = Ok item.
Proof.
  intros Htype (data & node & before & chosen & after & client_id
                & Hdata & Hnode & Hoptions & Hbefore & Hclient & Heq & Hitem).
  assert (Hcontents : settings_contents type response
                      = Ok (VArr (before ++ chosen :: after))).
  { unfold settings_contents.
    destruct Htype as [(-> & ->)|(-> & ->)]; simpl;
      rewrite Hdata; simpl; rewrite Hnode; simpl; exact Hoptions. }
  unfold pick_item. rewrite Hcontents. cbn [rbind as_array].
  rewrite (array_find_hit _ before chosen after).
  - exact Hitem.
  - eapply Forall_impl; [| exact Hbefore].
    intros o (id & Hid & Hno). unfold matches_setting. rewrite Hid. exact Hno.
  - unfold matches_setting. rewrite Hclient. exact Heq.
Qed.

(** Past the checks and with an item on the page, both requests go to the
    dispatcher. *)
Lemma setSetting_sends setting_id type new_value st response item :
  throwIfMissing (checked_arguments setting_id type new_value) = Ok tt ->
  values_has (property_key new_value) = true ->
  fst (browse (actions (self st)) type VUndefined (world st)) = Ok response ->
  pick_item setting_id type response = Ok item ->
  setSetting setting_id type new_value st
  = both_requests type (set_setting_args type new_value item) st.
Proof.
  intros Hpass Hhas Hpage Hitem.
  rewrite setSetting_run, Hpass, Hhas. cbv zeta. rewrite Hpage. cbn [rbind].
  rewrite Hitem. unfold both_requests. rewrite <- app_assoc. reflexivity.
Qed.

(** C2: each setter of [settings.notifications] and [settings.privacy],
    called with an accepted option that [throwIfMissing] lets through,
    fetches its settings page and, when the first option of that page (the
    [options] of the node [findNode] returns) whose [settingItemIdForClient]
    equals ([==]) the setting id of the setter is [chosen], hands the
    dispatcher's [account] method the request [account/set_setting] with the
    [settingItemId] of [chosen] as [setting_item_id], and settles with its
    answer.  Conversely an [account/set_setting] request is only ever made
    that way. *)
Theorem setter_sends_item_id_of_matching_option :
  forall (s : setter) (option : setting_value) (st : state World),
    (forall response data node before chosen after client_id item_id,
        throwIfMissing (checked_arguments (setter_id s) (setter_type s) option)
          = Ok tt ->
        option = SVString "ON" \/ option = SVString "OFF" ->
        fst (browse (actions (self st)) (setter_type s) VUndefined (world st))
          = Ok response ->
        get response "data" = Ok data ->
        findNode data "contents" (setter_target s) 13 false = Ok node ->
        get node "options" = Ok (VArr (before ++ chosen :: after)) ->
        Forall (fun o => exists id, walk o client_id_path = Ok id
                                    /\ loose_eq id (setter_id s) = Ok false) before ->
        walk chosen client_id_path = Ok client_id ->
        loose_eq client_id (setter_id s) = Ok true ->
        walk chosen item_id_path = Ok item_id ->
        run_setter s option st
        = both_requests (setter_type s)
            (VObj [("new_value", sent_value (setter_type s) option);
                   ("setting_item_id", item_id)]) st)
    /\ (forall (tr : list request) (t : string) (args : value),
          log (snd (run_setter s option st)) = log st ++ tr ->
          In (ReqAccount t args) tr ->
          exists response data node before chosen after client_id item_id,
            fst (browse (actions (self st)) (setter_type s) VUndefined (world st))
              = Ok response
            /\ tr = [ReqBrowse (setter_type s) VUndefined;
                     ReqAccount "account/set_setting" args]
            /\ get response "data" = Ok data
            /\ findNode data "contents" (setter_target s) 13 false = Ok node
            /\ get node "options" = Ok (VArr (before ++ chosen :: after))
            /\ Forall (fun o => exists id, walk o client_id_path = Ok id
                                           /\ loose_eq id (setter_id s) = Ok false)
                 before
            /\ walk chosen client_id_path = Ok client_id
            /\ loose_eq client_id (setter_id s) = Ok true
            /\ (forall text, client_id = VStr text -> text = setter_id s)
            /\ walk chosen item_id_path = Ok item_id
            /\ args = VObj [("new_value", sent_value (setter_type s) option);
                            ("setting_item_id", item_id)]).
Proof.
  intros s option st.
  assert (Hrun : run_setter s option st
                 = setSetting (setter_id s) (setter_type s) option st)
    by (destruct s; reflexivity).
  rewrite Hrun. split.
  - intros response data node before chosen after client_id item_id
      Hpass Hoption Hpage Hdata Hnode Hoptions Hbefore Hclient Heq Hitem.
    apply (setSetting_sends _ _ _ _ response item_id Hpass).
    + apply values_has_iff. exact Hoption.
    + exact Hpage.
    + apply (pick_item_of_page _ _ (setter_target s)).
      * destruct s; [left | left | left | left | left | left | right | right];
          split; reflexivity.
      * exists data, node, before, chosen, after, client_id. repeat split; assumption.
  - intros tr t args Hlog Hin.
    destruct (setSetting_account_request _ _ _ _ _ _ _ Hlog Hin)
      as (response & item & Hpage & Hitem & _ & -> & -> & ->).
    unfold pick_item in Hitem.
    apply rbind_ok_inv in Hitem. destruct Hitem as (contents & Hcontents & Hitem).
    apply rbind_ok_inv in Hitem. destruct Hitem as (options & Hoptions & Hitem).
    apply rbind_ok_inv in Hitem. destruct Hitem as (chosen & Hfind & Hitem).
    destruct contents; simpl in Hoptions; try discriminate.
    inversion Hoptions; subst options; clear Hoptions.
    apply setter_contents in Hcontents.
    destruct Hcontents as (data & node & Hdata & Hnode & Hopts).
    apply array_find_first in Hfind.
    destruct Hfind as [(before & after & -> & Hbefore & Hhit)|(-> & _)];
      [| discriminate].
    apply matches_setting_inv in Hhit. destruct Hhit as (client_id & Hclient & Heq).
    exists response, data, node, before, chosen, after, client_id, item.
    repeat split; try assumption.
    + eapply Forall_impl; [| exact Hbefore].
      intros o Ho. apply matches_setting_inv in Ho. exact Ho.
    + intros text ->. simpl in Heq. inversion Heq as [Htext].
      apply String.eqb_eq in Htext. exact Htext.
Qed.

(** C8: for an accepted [new_value] ("ON" maps to [true], "OFF" to [false])
    that [throwIfMissing] lets through and a page that holds an item for the
    setting, [#setSetting] hands the dispatcher's [account] method the
    request [account/set_setting] whose [new_value] is the mapped boolean
    negated when the type is ["SPaccount_privacy"] (ON sends [false], OFF
    sends [true]) and the mapped boolean itself when the type is
    ["SPaccount_notifications"] (ON sends [true], OFF sends [false]).
    Conversely every [account/set_setting] request carries that value, and
    nothing but an accepted [new_value] gets as far as the request. *)
Theorem setSetting_sends_flag :
  forall (setting_id : string) (new_value : setting_value) (st : state World),
    (forall (on : bool) (response item : value),
        new_value = SVString "ON" /\ on = true
        \/ new_value = SVString "OFF" /\ on = false ->
        (throwIfMissing (checked_arguments setting_id "SPaccount_privacy" new_value)
           = Ok tt ->
         fst (browse (actions (self st)) "SPaccount_privacy" VUndefined (world st))
           = Ok response ->
         page_item setting_id "settingsSwitchRenderer" response item ->
         setSetting setting_id "SPaccount_privacy" new_value st
         = both_requests "SPaccount_privacy"
             (VObj [("new_value", VBool (negb on)); ("setting_item_id", item)]) st)
        /\ (throwIfMissing
              (checked_arguments setting_id "SPaccount_notifications" new_value)
              = Ok tt ->
            fst (browse (actions (self st)) "SPaccount_notifications" VUndefined
                   (world st)) = Ok response ->
            page_item setting_id "Your preferences" response item ->
            setSetting setting_id "SPaccount_notifications" new_value st
            = both_requests "SPaccount_notifications"
                (VObj [("new_value", VBool on); ("setting_item_id", item)]) st))
    /\ (forall (type : string) (tr : list request) (t : string) (args : value),
          log (snd (setSetting setting_id type new_value st)) = log st ++ tr ->
          In (ReqAccount t args) tr ->
          exists on,
            (new_value = SVString "ON" /\ on = true
             \/ new_value = SVString "OFF" /\ on = false)
            /\ assoc (property_key new_value) values = Some on
            /\ t = "account/set_setting"
            /\ (type = "SPaccount_privacy" ->
                get args "new_value" = Ok (VBool (negb on)))
            /\ (type = "SPaccount_notifications" ->
                get args "new_value" = Ok (VBool on))).
Proof.
  intros setting_id new_value st. split.
  - intros on response item Hon.
    assert (Hhas : values_has (property_key new_value) = true).
    { apply values_has_iff. destruct Hon as [(-> & _)|(-> & _)]; auto. }
    split; intros Hpass Hpage Hitem.
    + rewrite (setSetting_sends _ _ _ _ response item Hpass Hhas Hpage).
      * destruct Hon as [(-> & ->)|(-> & ->)]; reflexivity.
      * apply (pick_item_of_page _ _ "settingsSwitchRenderer"); [right; auto | exact Hitem].
    + rewrite (setSetting_sends _ _ _ _ response item Hpass Hhas Hpage).
      * destruct Hon as [(-> & ->)|(-> & ->)]; reflexivity.
      * apply (pick_item_of_page _ _ "Your preferences"); [left; auto | exact Hitem].
  - intros type tr t args Hlog Hin.
    destruct (setSetting_account_request _ _ _ _ _ _ _ Hlog Hin)
      as (response & item & _ & _ & Hhas & -> & -> & _).
    apply values_has_iff in Hhas.
    destruct Hhas as [-> | ->]; [exists true | exists false];
      (repeat split; [auto | intros -> ..]); reflexivity.
Qed.

(** *** getAnalytics and channel.getBasicAnalytics *)

Lemma getInfo_run st :
  let answer :=
    account (actions (self st)) "account/accounts_list" accounts_list_args (world st) in
  getInfo st =
  (rbind (fst answer) info_of_response,
   {| self := self st; world := snd answer;
      log := log st ++ [ReqAccount "account/accounts_list" accounts_list_args] |}).
Proof.
  unfold getInfo, bind, lift, actions_account, dispatch, accounts_list_args.
  cbv zeta. destruct (account _ _ _ _) as [[response|e] w]; reflexivity.
Qed.

Lemma getAnalytics_run st :
  let accounts := ReqAccount "account/accounts_list" accounts_list_args in
  let answer :=
    account (actions (self st)) "account/accounts_list" accounts_list_args (world st) in
  let st1 := {| self := self st; world := snd answer; log := log st ++ [accounts] |} in
  getAnalytics st =
  match rbind (rbind (fst answer) info_of_response)
              (fun info => encodeChannelAnalyticsParams (channel_id info)) with
  | Err e => (Err e, st1)
  | Ok params =>
      let screen :=
        browse (actions (self st)) "FEanalytics_screen"
          (analytics_screen_args params) (snd answer) in
      (rbind (fst screen) (fun response =>
         rbind (get response "data") new_Analytics),
       {| self := self st; world := snd screen;
          log := log st ++ [accounts; ReqBrowse "FEanalytics_screen"
                                        (analytics_screen_args params)] |})
  end.
Proof.
  cbv zeta. unfold getAnalytics, bind at 1. rewrite getInfo_run. cbv zeta.
  destruct (rbind (fst _) info_of_response) as [info|e]; [| reflexivity].
  cbn [rbind]. unfold bind at 1, lift at 1.
  destruct (encodeChannelAnalyticsParams _) as [params|e]; [| reflexivity].
  unfold bind, lift, actions_browse, dispatch, analytics_screen_args.
  cbn [self world log].
  destruct (browse _ _ _ _) as [[response|e] w]; cbn [fst snd rbind].
  - rewrite <- app_assoc. simpl app.
    destruct (get response "data") as [data|e]; reflexivity.
  - rewrite <- app_assoc. reflexivity.
Qed.

(** C9: [channel.getBasicAnalytics] does what [getAnalytics] does, on every
    instance and world: the same result and the same requests, which are
    those of [getInfo] (the accounts list), then, once the channel id has
    been encoded, the browse of [FEanalytics_screen] with the encoded
    parameters, whose [data] goes to [Analytics]. *)
Theorem getBasicAnalytics_is_getAnalytics :
  forall st : state World,
    let accounts := ReqAccount "account/accounts_list" accounts_list_args in
    getBasicAnalytics st = getAnalytics st
    /\ match getInfo st with
       | (Err e, st1) =>
           getBasicAnalytics st = (Err e, st1)
           /\ log st1 = log st ++ [accounts]
       | (Ok info, st1) =>
           match encodeChannelAnalyticsParams (channel_id info) with
           | Err e =>
               getBasicAnalytics st = (Err e, st1)
               /\ log st1 = log st ++ [accounts]
           | Ok params =>
               let screen :=
                 browse (actions (self st1)) "FEanalytics_screen"
                   (analytics_screen_args params) (world st1) in
               getBasicAnalytics st =
               (rbind (fst screen) (fun response =>
                  rbind (get response "data") new_Analytics),
                {| self := self st; world := snd screen;
                   log := log st ++ [accounts; ReqBrowse "FEanalytics_screen"
                                                 (analytics_screen_args params)] |})
           end
       end.
Proof.
  intros st accounts. split; [reflexivity |].
  change (getBasicAnalytics st) with (getAnalytics st).
  rewrite getAnalytics_run, getInfo_run. cbv zeta.
  destruct (rbind (fst _) info_of_response) as [info|e]; cbn [rbind].
  - destruct (encodeChannelAnalyticsParams _) as [params|e]; cbn [self world log].
    + reflexivity.
    + split; reflexivity.
  - split; reflexivity.
Qed.

(** ** Further properties of the operations *)

(** *** #setSetting: what it dispatches and how it fails *)

Lemma walk_error v path e : walk v path = Err e -> e = RuntimeTypeError.
Proof.
  revert v. induction path as [|k rest IH]; simpl; intros v H; [discriminate |].
  destruct (get v k) as [x|e'] eqn:Hget; simpl in H.
  - eauto.
  - inversion H; subst e'.
    destruct v; simpl in Hget; try discriminate; try congruence.
    destruct (assoc k props); discriminate.
Qed.

Lemma setSetting_past_checks setting_id type new_value st :
  throwIfMissing (checked_arguments setting_id type new_value) = Ok tt ->
  values_has (property_key new_value) = true ->
  setSetting setting_id type new_value st =
  match rbind (fst (browse (actions (self st)) type VUndefined (world st)))
              (pick_item setting_id type) with
  | Err e => (Err e, after_page type st)
  | Ok item =>
      let answer :=
        account (actions (self st)) "account/set_setting"
          (set_setting_args type new_value item) (world (after_page type st)) in
      (fst answer,
       {| self := self st; world := snd answer;
          log := log (after_page type st) ++ [set_setting_request type new_value item] |})
  end.
Proof.
  intros Hpass Hhas. rewrite setSetting_run, Hpass, Hhas. reflexivity.
Qed.

(** X1: a call of [#setSetting] dispatches nothing, or the browse of the
    settings page alone, or that browse followed by the one
    [account/set_setting] request, and never anything else.  It dispatches
    nothing exactly when [throwIfMissing] throws or the option is refused,
    and it resolves only after both requests, with the answer to the second. *)
Theorem setSetting_requests_shape :
  forall (setting_id type : string) (new_value : setting_value) (st : state World),
    let settled := setSetting setting_id type new_value st in
    (log (snd settled) = log st
     \/ log (snd settled) = log st ++ [page_request type]
     \/ exists item,
          log (snd settled)
          = log st ++ [page_request type; set_setting_request type new_value item])
    /\ (log (snd settled) = log st
        <-> (exists e, throwIfMissing (checked_arguments setting_id type new_value) = Err e)
            \/ values_has (property_key new_value) = false)
    /\ (forall v, fst settled = Ok v ->
          exists item,
            log (snd settled)
            = log st ++ [page_request type; set_setting_request type new_value item]
            /\ fst (account (actions (self st)) "account/set_setting"
                      (set_setting_args type new_value item)
                      (world (after_page type st))) = Ok v).
Proof.
  intros setting_id type new_value st settled. unfold settled.
  destruct (throwIfMissing (checked_arguments setting_id type new_value))
    as [[]|e] eqn:Hpass.
  - destruct (values_has (property_key new_value)) eqn:Hhas.
    + rewrite (setSetting_past_checks _ _ _ _ Hpass Hhas).
      destruct (rbind _ (pick_item setting_id type)) as [item|e]; cbn [fst snd log].
      * split; [| split].
        -- right. right. exists item. unfold after_page. cbn [log].
           rewrite <- app_assoc. reflexivity.
        -- split.
           ++ unfold after_page. cbn [log]. rewrite <- app_assoc. intros H.
              apply app_eq_self in H. discriminate.
           ++ intros [(e & He)|He]; discriminate.
        -- intros v Hv. exists item. split; [| exact Hv].
           unfold after_page. cbn [log]. rewrite <- app_assoc. reflexivity.
      * split; [| split].
        -- right. left. reflexivity.
        -- split.
           ++ unfold after_page. cbn [log]. intros H.
              apply app_eq_self in H. discriminate.
           ++ intros [(e' & He)|He]; discriminate.
        -- intros v Hv. discriminate.
    + rewrite setSetting_run, Hpass, Hhas. cbn [fst snd].
      split; [left; reflexivity | split].
      * split; [right; reflexivity | reflexivity].
      * intros v Hv. discriminate.
  - rewrite setSetting_run, Hpass. cbn [fst snd].
    split; [left; reflexivity | split].
    + split; [left; eauto | reflexivity].
    + intros v Hv. discriminate.
Qed.

(** X2: a type that is neither of the two settings pages (after trimming)
    is found out only after the page has been fetched: the call rejects with
    the [TypeError] "undefined is not a function", having dispatched the
    browse request and nothing else. *)
Theorem setSetting_unknown_type :
  forall (setting_id type : string) (new_value : setting_value) (st : state World)
         (response : value),
    throwIfMissing (checked_arguments setting_id type new_value) = Ok tt ->
    values_has (property_key new_value) = true ->
    fst (browse (actions (self st)) type VUndefined (world st)) = Ok response ->
    trim type <> "SPaccount_notifications" ->
    trim type <> "SPaccount_privacy" ->
    setSetting setting_id type new_value st
    = (Err (TypeError "undefined is not a function"), after_page type st).
Proof.
  intros setting_id type new_value st response Hpass Hhas Hpage Hn Hp.
  rewrite (setSetting_past_checks _ _ _ _ Hpass Hhas), Hpage.
  cbn [rbind]. unfold pick_item, settings_contents.
  apply String.eqb_neq in Hn. apply String.eqb_neq in Hp.
  rewrite Hn, Hp. reflexivity.
Qed.

Lemma loose_eq_error x s e : loose_eq x s = Err e -> e = RuntimeTypeError.
Proof.
  destruct x; cbn [loose_eq]; try discriminate.
  - destruct (to_string (VArr elems)) as [t|e'] eqn:Ht; cbn [rbind]; [discriminate |].
    intros H. inversion H; subst e'. exact (to_string_error _ _ Ht).
  - destruct (to_string (VObj props)) as [t|e'] eqn:Ht; cbn [rbind]; [discriminate |].
    intros H. inversion H; subst e'. exact (to_string_error _ _ Ht).
Qed.

(** An option whose client id can be read and does not [==] the setting id:
    the callback of [find] says no, or the comparison throws. *)
Lemma matches_setting_no setting_id o :
  (exists id, walk o client_id_path = Ok id /\ loose_eq id setting_id <> Ok true) ->
  matches_setting setting_id o = Ok false
  \/ matches_setting setting_id o = Err RuntimeTypeError.
Proof.
  intros (id & Hid & Hno). unfold matches_setting. rewrite Hid. cbn [rbind].
  destruct (loose_eq id setting_id) as [[|]|e] eqn:Heq.
  - contradiction.
  - left. reflexivity.
  - right. rewrite (loose_eq_error _ _ _ Heq). reflexivity.
Qed.

Lemma array_find_none p l :
  Forall (fun o => p o = Ok false \/ p o = Err RuntimeTypeError) l ->
  array_find p l = Ok VUndefined \/ array_find p l = Err RuntimeTypeError.
Proof.
  induction 1 as [|o l [Ho|Ho] _ IH]; simpl.
  - left. reflexivity.
  - rewrite Ho. exact IH.
  - rewrite Ho. right. reflexivity.
Qed.

Lemma array_find_stops p before bad after :
  Forall (fun o => p o = Ok false \/ p o = Err RuntimeTypeError) before ->
  p bad = Err RuntimeTypeError ->
  array_find p (before ++ bad :: after) = Err RuntimeTypeError.
Proof.
  induction 1 as [|o l [Ho|Ho] _ IH]; simpl; intros Hbad.
  - rewrite Hbad. reflexivity.
  - rewrite Ho. simpl. auto.
  - rewrite Ho. reflexivity.
Qed.

(** X3: when the page has been fetched and none of its options carries the
    setting id, [contents.find] gives [undefined] and the read of its
    [settingsSwitchRenderer] throws: the call rejects with a [TypeError] of
    the runtime and no [account/set_setting] request is made. *)
Theorem setSetting_no_matching_option :
  forall (setting_id type : string) (new_value : setting_value) (st : state World)
         (response : value) (options : list value),
    throwIfMissing (checked_arguments setting_id type new_value) = Ok tt ->
    values_has (property_key new_value) = true ->
    fst (browse (actions (self st)) type VUndefined (world st)) = Ok response ->
    settings_contents type response = Ok (VArr options) ->
    Forall (fun o => exists id, walk o client_id_path = Ok id
                                /\ loose_eq id setting_id <> Ok true) options ->
    setSetting setting_id type new_value st
    = (Err RuntimeTypeError, after_page type st).
Proof.
  intros setting_id type new_value st response options Hpass Hhas Hpage Hcontents Hnone.
  rewrite (setSetting_past_checks _ _ _ _ Hpass Hhas), Hpage.
  cbn [rbind]. unfold pick_item. rewrite Hcontents. cbn [rbind as_array].
  destruct (array_find_none (matches_setting setting_id) options) as [Hfind|Hfind].
  - eapply Forall_impl; [| exact Hnone].
    intros o Ho. apply matches_setting_no. exact Ho.
  - rewrite Hfind. reflexivity.
  - rewrite Hfind. reflexivity.
Qed.

(** X4: [contents.find] reads the client id of every option up to the
    match, so an option without the switch path that comes before the
    matching one makes the call reject with a [TypeError] of the runtime,
    whatever follows it, and no [account/set_setting] request is made. *)
Theorem setSetting_stops_at_malformed_option :
  forall (setting_id type : string) (new_value : setting_value) (st : state World)
         (response : value) (before : list value) (bad : value) (after : list value)
         (e : error),
    throwIfMissing (checked_arguments setting_id type new_value) = Ok tt ->
    values_has (property_key new_value) = true ->
    fst (browse (actions (self st)) type VUndefined (world st)) = Ok response ->
    settings_contents type response = Ok (VArr (before ++ bad :: after)) ->
    Forall (fun o => exists id, walk o client_id_path = Ok id
                                /\ loose_eq id setting_id <> Ok true) before ->
    walk bad client_id_path = Err e ->
    setSetting setting_id type new_value st
    = (Err RuntimeTypeError, after_page type st).
Proof.
  intros setting_id type new_value st response before bad after e
    Hpass Hhas Hpage Hcontents Hbefore Hbad.
  rewrite (setSetting_past_checks _ _ _ _ Hpass Hhas), Hpage.
  cbn [rbind]. unfold pick_item. rewrite Hcontents. cbn [rbind as_array].
  rewrite (array_find_stops _ before bad after); [reflexivity | |].
  - eapply Forall_impl; [| exact Hbefore].
    intros o Ho. apply matches_setting_no. exact Ho.
  - unfold matches_setting. rewrite Hbad.
    rewrite (walk_error _ _ _ Hbad). reflexivity.
Qed.

(** X5: the [switch] compares the trimmed type, the negation of the value
    compares the type as given.  For a type that is "SPaccount_privacy" only
    after trimming, the options are those of the privacy page (the search
    for "settingsSwitchRenderer"), yet the value that is handed to the
    dispatcher is the mapped boolean itself, not its negation; and every
    [account/set_setting] request of such a call is of that kind. *)
Theorem setSetting_untrimmed_privacy_not_negated :
  forall (setting_id type : string) (new_value : setting_value) (st : state World),
    trim type = "SPaccount_privacy" ->
    type <> "SPaccount_privacy" ->
    (forall (on : bool) (response item : value),
        throwIfMissing (checked_arguments setting_id type new_value) = Ok tt ->
        assoc (property_key new_value) values = Some on ->
        fst (browse (actions (self st)) type VUndefined (world st)) = Ok response ->
        page_item setting_id "settingsSwitchRenderer" response item ->
        setSetting setting_id type new_value st
        = both_requests type
            (VObj [("new_value", VBool on); ("setting_item_id", item)]) st)
    /\ (forall (tr : list request) (t : string) (args : value),
          log (snd (setSetting setting_id type new_value st)) = log st ++ tr ->
          In (ReqAccount t args) tr ->
          exists response data node on,
            fst (browse (actions (self st)) type VUndefined (world st)) = Ok response
            /\ get response "data" = Ok data
            /\ findNode data "contents" "settingsSwitchRenderer" 13 false = Ok node
            /\ assoc (property_key new_value) values = Some on
            /\ get args "new_value" = Ok (VBool on)).
Proof.
  intros setting_id type new_value st Htrim Htype.
  assert (Hneq : String.eqb type "SPaccount_privacy" = false)
    by (apply String.eqb_neq; exact Htype).
  split.
  - intros on response item Hpass Hon Hpage Hitem.
    assert (Hhas : values_has (property_key new_value) = true)
      by (unfold values_has; rewrite Hon; reflexivity).
    rewrite (setSetting_sends _ _ _ _ response item Hpass Hhas Hpage).
    + unfold set_setting_args, sent_value, values_at. rewrite Hneq, Hon. reflexivity.
    + apply (pick_item_of_page _ _ "settingsSwitchRenderer"); [right; auto | exact Hitem].
  - intros tr t args Hlog Hin.
    destruct (setSetting_account_request _ _ _ _ _ _ _ Hlog Hin)
      as (response & item & Hpage & Hitem & Hhas & -> & -> & _).
    unfold pick_item in Hitem.
    apply rbind_ok_inv in Hitem. destruct Hitem as (contents & Hcontents & _).
    unfold settings_contents in Hcontents. rewrite Htrim in Hcontents.
    simpl in Hcontents.
    apply rbind_ok_inv in Hcontents. destruct Hcontents as (data & Hdata & Hcontents).
    apply rbind_ok_inv in Hcontents. destruct Hcontents as (node & Hnode & _).
    apply values_has_iff in Hhas.
    destruct Hhas as [-> | ->]; [exists response, data, node, true
                                | exists response, data, node, false];
      (repeat split; try assumption);
      unfold set_setting_args, sent_value; rewrite Hneq; reflexivity.
Qed.

(** *** getTimeWatched and getInfo: when they resolve *)

Lemma strings_of_printable (texts : list value) :
  (exists ss, strings_of texts = Ok ss) <-> forallb printable texts = true.
Proof.
  apply strings_of_ok_iff. intros x _. apply to_string_ok_iff.
Qed.

Lemma array_map_texts_ok_iff (l : list value) :
  (exists texts, array_map (fun run => get run "text") l = Ok texts
                 /\ forallb printable texts = true)
  <-> forallb readable_run l = true.
Proof.
  induction l as [|run l IH]; simpl.
  - split; [reflexivity | intros _; exists []; auto].
  - rewrite andb_true_iff, <- IH. unfold readable_run at 1. split.
    + intros (texts & H & Hp).
      apply rbind_ok_inv in H. destruct H as (text & Hrun & H).
      apply rbind_ok_inv in H. destruct H as (rest & Hrest & H).
      inversion H; subst texts. simpl in Hp. apply andb_prop in Hp.
      rewrite Hrun. destruct Hp. eauto.
    + intros (Hrun & (rest & Hrest & Hp)).
      destruct (get run "text") as [text|]; [| discriminate].
      rewrite Hrest. simpl. exists (text :: rest). split; [reflexivity |].
      simpl. now rewrite Hrun, Hp.
Qed.

Lemma run_texts_ok_iff (runs : value) :
  (exists text, run_texts runs = Ok text) <-> texts_readable runs = true.
Proof.
  unfold run_texts, texts_readable.
  destruct runs; cbn [as_array rbind];
    try (split; [intros (? & H); discriminate | discriminate]).
  rewrite <- array_map_texts_ok_iff. split.
  - intros (text & H). apply rbind_ok_inv in H. destruct H as (texts & Hmap & Hjoin).
    exists texts. split; [exact Hmap |].
    apply strings_of_printable. unfold join in Hjoin.
    destruct (strings_of texts); [eauto | discriminate].
  - intros (texts & Hmap & Hp). rewrite Hmap. cbn [rbind]. unfold join.
    apply strings_of_printable in Hp. destruct Hp as (ss & ->). simpl. eauto.
Qed.

Lemma renderer_texts_ok_iff (renderer : value) (k : string) :
  (exists text, rbind (walk renderer [k; "runs"]) run_texts = Ok text)
  <-> runs_readable renderer k = true.
Proof.
  unfold runs_readable.
  destruct (walk renderer [k; "runs"]) as [runs|e]; cbn [rbind].
  - apply run_texts_ok_iff.
  - split; [intros (? & H); discriminate | discriminate].
Qed.

Lemma row_stat_ok_iff (row : value) :
  (exists stat, row_stat row = Ok stat) <-> row_well_formed row = true.
Proof.
  unfold row_stat, row_well_formed.
  destruct (get row "statRowRenderer") as [renderer|e]; cbn [rbind];
    [| split; [intros (? & H); discriminate | discriminate]].
  destruct (truthy renderer); [| split; eauto].
  rewrite andb_true_iff, <- !renderer_texts_ok_iff. split.
  - intros (stat & H).
    destruct (walk renderer ["title"; "runs"]) as [title_runs|]; [| discriminate].
    cbn [rbind] in *.
    destruct (run_texts title_runs) as [title_text|]; [| discriminate].
    cbn [rbind] in *.
    destruct (walk renderer ["contents"; "runs"]) as [contents_runs|]; [| discriminate].
    cbn [rbind] in *.
    destruct (run_texts contents_runs) as [time_text|]; [| discriminate].
    split; eauto.
  - intros ((title_text & Ht) & (time_text & Hc)).
    destruct (walk renderer ["title"; "runs"]) as [title_runs|]; [| discriminate].
    cbn [rbind] in *. rewrite Ht. cbn [rbind].
    destruct (walk renderer ["contents"; "runs"]) as [contents_runs|]; [| discriminate].
    cbn [rbind] in *. rewrite Hc. cbn [rbind]. eauto.
Qed.

Lemma array_map_row_stat_ok_iff (rows : list value) :
  (exists stats, array_map row_stat rows = Ok stats)
  <-> forallb row_well_formed rows = true.
Proof.
  induction rows as [|row rows IH]; simpl.
  - split; [reflexivity | eauto].
  - rewrite andb_true_iff, <- IH, <- row_stat_ok_iff. split.
    + intros (stats & H).
      apply rbind_ok_inv in H. destruct H as (stat & Hrow & H).
      apply rbind_ok_inv in H. destruct H as (rest & Hrest & _).
      split; eauto.
    + intros ((stat & Hrow) & (rest & Hrest)).
      rewrite Hrow, Hrest. simpl. eauto.
Qed.

Lemma getTimeWatched_run st :
  let args := VObj [("client", VStr "ANDROID")] in
  let answer := browse (actions (self st)) "SPtime_watched" args (world st) in
  getTimeWatched st =
  (rbind (fst answer) stats_of_response,
   {| self := self st; world := snd answer;
      log := log st ++ [ReqBrowse "SPtime_watched" args] |}).
Proof.
  unfold getTimeWatched, bind, lift, actions_browse, dispatch.
  cbv zeta. destruct (browse _ _ _ _) as [[response|e] w]; reflexivity.
Qed.

(** X6: [getTimeWatched] resolves exactly when the browse resolves, the
    node [findNode] returns for the response's [data] is an array, and every
    row of it is well formed: not [null], and with readable [title] and
    [contents] runs when its [statRowRenderer] is truthy.  One row
    that is not makes the whole call reject; there is no partial list. *)
Theorem getTimeWatched_resolves_iff_rows_well_formed :
  forall st : state World,
    (exists stats, fst (getTimeWatched st) = Ok stats)
    <-> exists response data rows,
          fst (browse (actions (self st)) "SPtime_watched"
                 (VObj [("client", VStr "ANDROID")]) (world st)) = Ok response
          /\ get response "data" = Ok data
          /\ findNode data "contents" "statRowRenderer" 11 false = Ok (VArr rows)
          /\ forallb row_well_formed rows = true.
Proof.
  intros st. rewrite getTimeWatched_run. cbv zeta. cbn [fst]. split.
  - intros (stats & H).
    apply rbind_ok_inv in H. destruct H as (response & Hpage & H).
    unfold stats_of_response in H.
    apply rbind_ok_inv in H. destruct H as (data & Hdata & H).
    apply rbind_ok_inv in H. destruct H as (node & Hnode & H).
    apply rbind_ok_inv in H. destruct H as (rows & Hrows & H).
    apply rbind_ok_inv in H. destruct H as (mapped & Hmapped & _).
    destruct node; simpl in Hrows; try discriminate. inversion Hrows; subst rows.
    exists response, data, elems. repeat split; try assumption.
    apply array_map_row_stat_ok_iff. eauto.
  - intros (response & data & rows & Hpage & Hdata & Hnode & Hrows).
    apply array_map_row_stat_ok_iff in Hrows. destruct Hrows as (mapped & Hmapped).
    rewrite Hpage. cbn [rbind]. unfold stats_of_response.
    rewrite Hdata. cbn [rbind]. rewrite Hnode. cbn [rbind as_array].
    rewrite Hmapped. cbn [rbind]. eauto.
Qed.

Lemma somes_row_stat_length (rows : list value) :
  forall mapped, array_map row_stat rows = Ok mapped ->
                 List.length (somes mapped) = List.length (filter shows_renderer rows).
Proof.
  induction rows as [|row rows IH]; simpl; intros mapped H.
  - inversion H. reflexivity.
  - apply rbind_ok_inv in H. destruct H as (stat & Hrow & H).
    apply rbind_ok_inv in H. destruct H as (rest & Hrest & H).
    inversion H; subst mapped; clear H.
    specialize (IH _ Hrest).
    unfold row_stat in Hrow. unfold shows_renderer at 1.
    destruct (get row "statRowRenderer") as [renderer|]; [| discriminate].
    cbn [rbind] in Hrow.
    destruct (truthy renderer).
    + apply rbind_ok_inv in Hrow. destruct Hrow as (? & _ & Hrow).
      apply rbind_ok_inv in Hrow. destruct Hrow as (? & _ & Hrow).
      apply rbind_ok_inv in Hrow. destruct Hrow as (? & _ & Hrow).
      apply rbind_ok_inv in Hrow. destruct Hrow as (? & _ & Hrow).
      inversion Hrow; subst stat. simpl. now rewrite IH.
    + inversion Hrow; subst stat. simpl. exact IH.
Qed.

(** X7: the list [getTimeWatched] resolves with has one record for each row
    whose [statRowRenderer] is truthy and none besides: its length is the
    number of those rows, so it is never longer than the rows. *)
Theorem getTimeWatched_counts_renderers :
  forall (st st' : state World) (stats : list Stat),
    getTimeWatched st = (Ok stats, st') ->
    exists response data rows,
      fst (browse (actions (self st)) "SPtime_watched"
             (VObj [("client", VStr "ANDROID")]) (world st)) = Ok response
      /\ get response "data" = Ok data
      /\ findNode data "contents" "statRowRenderer" 11 false = Ok (VArr rows)
      /\ List.length stats = List.length (filter shows_renderer rows)
      /\ List.length stats <= List.length rows.
Proof.
  intros st st' stats H. rewrite getTimeWatched_run in H. cbv zeta in H.
  inversion H as [[Hres Hst]]. clear H Hst.
  apply rbind_ok_inv in Hres. destruct Hres as (response & Hpage & H).
  unfold stats_of_response in H.
  apply rbind_ok_inv in H. destruct H as (data & Hdata & H).
  apply rbind_ok_inv in H. destruct H as (node & Hnode & H).
  apply rbind_ok_inv in H. destruct H as (rows & Hrows & H).
  apply rbind_ok_inv in H. destruct H as (mapped & Hmapped & H).
  inversion H; subst stats; clear H.
  destruct node; simpl in Hrows; try discriminate. inversion Hrows; subst rows.
  exists response, data, elems.
  pose proof (somes_row_stat_length _ _ Hmapped) as Hlen.
  repeat split; try assumption.
  rewrite Hlen. apply filter_length_le.
Qed.

(** X8: unless the node [findNode] returns has an [accountItem] (a value
    other than [undefined] and [null] under that name), [getInfo] rejects
    with a [TypeError] of the runtime: it never resolves with a record that
    lacks the profile. *)
Theorem getInfo_without_account_item :
  forall (st : state World) (response data node : value),
    fst (account (actions (self st)) "account/accounts_list"
           (VObj [("client", VStr "ANDROID")]) (world st)) = Ok response ->
    get response "data" = Ok data ->
    findNode data "contents" "accountItem" 8 false = Ok node ->
    (forall item, get node "accountItem" = Ok item -> nullish item = true) ->
    fst (getInfo st) = Err RuntimeTypeError.
Proof.
  intros st response data node Hpage Hdata Hnode Hitem.
  rewrite getInfo_run. cbv zeta. cbn [fst]. unfold accounts_list_args.
  rewrite Hpage. cbn [rbind]. unfold info_of_response.
  rewrite Hdata. cbn [rbind]. rewrite Hnode. cbn [rbind].
  unfold profile_path. cbn [walk].
  destruct (get node "accountItem") as [item|e] eqn:Hget; cbn [rbind].
  - specialize (Hitem item eq_refl).
    destruct item; try discriminate; reflexivity.
  - destruct node; simpl in Hget; try discriminate; try (inversion Hget; reflexivity).
    destruct (assoc "accountItem" props); discriminate.
Qed.

(** *** Joined run texts *)

Lemma concat_empty_app (a b : list string) :
  String.concat "" (a ++ b) = (String.concat "" a ++ String.concat "" b)%string.
Proof.
  induction a as [|s a IH]; [reflexivity |].
  assert (Hcons : forall l, String.concat "" (s :: l) = (s ++ String.concat "" l)%string).
  { intros [|t l]; simpl; [| reflexivity].
    clear. induction s; simpl; congruence. }
  change ((s :: a) ++ b) with (s :: (a ++ b)).
  rewrite !Hcons, IH.
  clear. induction s; simpl; congruence.
Qed.

Lemma array_map_app {B} (f : value -> result B) (a b : list value) :
  array_map f (a ++ b)
  = rbind (array_map f a) (fun xs => rbind (array_map f b) (fun ys => Ok (xs ++ ys))).
Proof.
  induction a as [|x a IH]; simpl.
  - destruct (array_map f b); reflexivity.
  - destruct (f x) as [y|e]; simpl; [| reflexivity].
    rewrite IH. destruct (array_map f a) as [xs|e]; simpl; [| reflexivity].
    destruct (array_map f b); reflexivity.
Qed.

Lemma strings_of_app (a b : list value) :
  strings_of (a ++ b)
  = rbind (strings_of a) (fun xs => rbind (strings_of b) (fun ys => Ok (xs ++ ys))).
Proof.
  induction a as [|x a IH]; simpl.
  - destruct (strings_of b); reflexivity.
  - destruct (elem_string x) as [t|e]; simpl; [| reflexivity].
    rewrite IH. destruct (strings_of a) as [xs|e]; simpl; [| reflexivity].
    destruct (strings_of b); reflexivity.
Qed.

Lemma join_error sep l e : join sep l = Err e -> e = RuntimeTypeError.
Proof.
  unfold join. destruct (strings_of l) as [ss|e'] eqn:Hss; simpl; [discriminate |].
  intros H. inversion H; subst e'.
  apply (strings_of_error l); [| exact Hss].
  intros x e1 _. apply to_string_error.
Qed.

Lemma array_map_texts_error l e :
  array_map (fun run => get run "text") l = Err e -> e = RuntimeTypeError.
Proof.
  induction l as [|run l IH]; simpl; [discriminate |].
  destruct (get run "text") as [text|e'] eqn:Hget; simpl.
  - destruct (array_map _ l) as [texts|e'']; simpl; [discriminate |].
    intros H. inversion H; subst e''. auto.
  - intros H. inversion H; subst e'.
    apply (walk_error run ["text"]). simpl. rewrite Hget. reflexivity.
Qed.

(** X9: the text joined from a list of runs ([runs.map((run) => run.text)
    .join("")], as for the subscriber count and for the title and time of a
    row) is the text of its first part followed by the text of the rest, and
    it fails when either part fails; a run without [text], or with [null]
    for it, adds nothing. *)
Theorem run_texts_concatenates :
  forall a b : list value,
    run_texts (VArr (a ++ b))
    = rbind (run_texts (VArr a)) (fun first =>
      rbind (run_texts (VArr b)) (fun rest => Ok (first ++ rest)%string))
    /\ (forall props, assoc "text" props = None \/ assoc "text" props = Some VNull ->
          run_texts (VArr (a ++ VObj props :: b)) = run_texts (VArr (a ++ b))).
Proof.
  intros a b.
  assert (Happ : forall a b,
            run_texts (VArr (a ++ b))
            = rbind (run_texts (VArr a)) (fun first =>
              rbind (run_texts (VArr b)) (fun rest => Ok (first ++ rest)%string))).
  { clear. intros a b. unfold run_texts. cbn [as_array rbind].
    rewrite array_map_app.
    destruct (array_map _ a) as [xs|e]; cbn [rbind]; [| reflexivity].
    destruct (array_map _ b) as [ys|e] eqn:Hb; cbn [rbind].
    - unfold join. rewrite strings_of_app.
      destruct (strings_of xs) as [sx|e]; cbn [rbind]; [| reflexivity].
      destruct (strings_of ys) as [sy|e]; cbn [rbind]; [| reflexivity].
      rewrite concat_empty_app. reflexivity.
    - rewrite (array_map_texts_error _ _ Hb).
      destruct (join "" xs) as [first|e'] eqn:Hjoin; cbn [rbind]; [reflexivity |].
      rewrite (join_error _ _ _ Hjoin). reflexivity. }
  split; [apply Happ |].
  intros props Hprops.
  change (a ++ VObj props :: b) with (a ++ [VObj props] ++ b).
  rewrite (Happ a ([VObj props] ++ b)), (Happ [VObj props] b), (Happ a b).
  assert (Hone : run_texts (VArr [VObj props]) = Ok "").
  { unfold run_texts. cbn [as_array rbind array_map get].
    destruct Hprops as [-> | ->]; reflexivity. }
  rewrite Hone. cbn [rbind].
  destruct (run_texts (VArr a)) as [first|]; cbn [rbind]; [| reflexivity].
  destruct (run_texts (VArr b)) as [rest|]; reflexivity.
Qed.

(** *** getAnalytics after getInfo *)

(** X10: when [getAnalytics] (and so [channel.getBasicAnalytics]) browses
    the analytics screen, the [params] it sends are the encoding of the
    channel id that [getInfo] read from the accounts list: the [browseId] of
    the first footer of the first entry of its [data.contents]; the browse
    comes second, after the accounts list. *)
Theorem getAnalytics_encodes_footer_browse_id :
  forall (st : state World) (tr : list request) (t : string) (args : value),
    log (snd (getAnalytics st)) = log st ++ tr ->
    In (ReqBrowse t args) tr ->
    exists response info params,
      fst (account (actions (self st)) "account/accounts_list"
             (VObj [("client", VStr "ANDROID")]) (world st)) = Ok response
      /\ info_of_response response = Ok info
      /\ footer_browse_id response = Ok (channel_id info)
      /\ encodeChannelAnalyticsParams (channel_id info) = Ok params
      /\ t = "FEanalytics_screen"
      /\ args = VObj [("params", params); ("client", VStr "ANDROID")]
      /\ tr = [ReqAccount "account/accounts_list" (VObj [("client", VStr "ANDROID")]);
               ReqBrowse t args].
Proof.
  intros st tr t args Hlog Hin.
  rewrite getAnalytics_run in Hlog. cbv zeta in Hlog.
  unfold accounts_list_args, analytics_screen_args in Hlog.
  destruct (fst (account _ _ _ _)) as [response|e] eqn:Hpage; cbn [rbind] in Hlog.
  - destruct (info_of_response response) as [info|e] eqn:Hinfo; cbn [rbind] in Hlog.
    + destruct (encodeChannelAnalyticsParams (channel_id info)) as [params|e] eqn:Hp;
        cbn [snd log] in Hlog.
      * apply app_inv_head in Hlog. subst tr.
        destruct Hin as [Hin|[Hin|[]]]; [discriminate |].
        inversion Hin; subst t args.
        exists response, info, params. repeat split; try assumption.
        unfold info_of_response in Hinfo.
        repeat (apply rbind_ok_inv in Hinfo; destruct Hinfo as (? & ? & Hinfo)).
        inversion Hinfo. simpl. assumption.
      * apply app_inv_head in Hlog. subst tr. destruct Hin as [Hin|[]]. discriminate.
    + apply app_inv_head in Hlog. subst tr. destruct Hin as [Hin|[]]. discriminate.
  - apply app_inv_head in Hlog. subst tr. destruct Hin as [Hin|[]]. discriminate.
Qed.

(** *** How many requests an operation makes *)

Lemma setSetting_at_most_two setting_id type new_value st :
  exists tr, log (snd (setSetting setting_id type new_value st)) = log st ++ tr
             /\ List.length tr <= 2.
Proof.
  rewrite setSetting_run.
  destruct (throwIfMissing _) as [[]|e];
    [| exists []; split; [now rewrite app_nil_r | simpl; lia]].
  destruct (values_has _);
    [| exists []; split; [now rewrite app_nil_r | simpl; lia]].
  cbv zeta. destruct (rbind _ (pick_item setting_id type)) as [item|e]; cbn [snd log].
  - eexists. rewrite <- app_assoc. split; [reflexivity | simpl; lia].
  - eexists. split; [reflexivity | simpl; lia].
Qed.

Lemma perform_at_most_two op st :
  exists tr, log (perform op st) = log st ++ tr /\ List.length tr <= 2.
Proof.
  assert (Hanalytics : exists tr, log (snd (getAnalytics st)) = log st ++ tr
                                  /\ List.length tr <= 2).
  { rewrite getAnalytics_run. cbv zeta.
    destruct (rbind _ _) as [params|e]; cbn [snd log]; eexists;
      (split; [reflexivity | simpl; lia]). }
  destruct op; unfold perform, settle.
  - unfold editName, actions_channel. rewrite dispatch_run. cbn [snd log].
    eexists. split; [reflexivity | simpl; lia].
  - unfold editDescription, actions_channel. rewrite dispatch_run. cbn [snd log].
    eexists. split; [reflexivity | simpl; lia].
  - exact Hanalytics.
  - destruct s; apply setSetting_at_most_two.
  - rewrite getInfo_run. cbn [snd log]. eexists. split; [reflexivity | simpl; lia].
  - rewrite getTimeWatched_run. cbn [snd log]. eexists.
    split; [reflexivity | simpl; lia].
  - exact Hanalytics.
Qed.

(** X11: no public operation dispatches more than two requests, whatever
    the service answers, so a sequence of [n] operations dispatches at most
    [2 * n]: nothing is retried and nothing is sent in a loop. *)
Theorem operations_dispatch_at_most_two_each :
  forall (ops : list operation) (st : state World),
    exists tr,
      log (perform_all ops st) = log st ++ tr
      /\ List.length tr <= 2 * List.length ops.
Proof.
  unfold perform_all. induction ops as [|op ops IH]; intros st; simpl fold_left.
  - exists []. split; [now rewrite app_nil_r | simpl; lia].
  - destruct (perform_at_most_two op st) as (tr & Hlog & Hlen).
    destruct (IH (perform op st)) as (tr' & Hlog' & Hlen').
    exists (tr ++ tr'). split.
    + rewrite Hlog', Hlog. now rewrite app_assoc.
    + rewrite length_app. simpl List.length. lia.
Qed.

(** X12: [getInfo] and [getTimeWatched] each dispatch exactly one request,
    whatever comes back; a rejection by the dispatcher is passed on as it is,
    and an error met while the response is read is a rejection too, after
    which the world is the one the dispatcher left. *)
Theorem getInfo_getTimeWatched_one_request :
  forall st : state World,
    let client := VObj [("client", VStr "ANDROID")] in
    let accounts := account (actions (self st)) "account/accounts_list" client (world st) in
    let watched := browse (actions (self st)) "SPtime_watched" client (world st) in
    log (snd (getInfo st)) = log st ++ [ReqAccount "account/accounts_list" client]
    /\ world (snd (getInfo st)) = snd accounts
    /\ (forall e, fst accounts = Err e -> fst (getInfo st) = Err e)
    /\ log (snd (getTimeWatched st)) = log st ++ [ReqBrowse "SPtime_watched" client]
    /\ world (snd (getTimeWatched st)) = snd watched
    /\ (forall e, fst watched = Err e -> fst (getTimeWatched st) = Err e).
Proof.
  intros st client accounts watched.
  rewrite getInfo_run, getTimeWatched_run. cbv zeta. cbn [fst snd log world].
  fold client. fold accounts. fold watched. unfold accounts_list_args. fold client.
  repeat split; try reflexivity.
  - intros e He. fold accounts. rewrite He. reflexivity.
  - intros e He. rewrite He. reflexivity.
Qed.

End AccountManager.

(** ** Node search: properties *)

Section NodeSearchProperties.

Variable Node : Type.
Variable entries : Node -> list (string * Node).

Lemma first_found_spec (visit : Node -> option (option Node)) (children : list Node) :
  (forall c, In c children -> visit c <> None) ->
  match Utils.first_found visit children with
  | None => False
  | Some (Some found) => exists c, In c children /\ visit c = Some (Some found)
  | Some None => forall c, In c children -> visit c = Some None
  end.
Proof.
  induction children as [|c rest IH]; simpl; intros Hdone.
  - intros c [].
  - destruct (visit c) as [[found|]|] eqn:Hc.
    + exists c. auto.
    + assert (Hrest : forall c', In c' rest -> visit c' <> None) by auto.
      specialize (IH Hrest).
      destruct (Utils.first_found visit rest) as [[found|]|].
      * destruct IH as (c' & Hin & Hv). eauto.
      * intros c' [<-|Hin]; auto.
      * exact IH.
    + apply (Hdone c); auto.
Qed.

Lemma search_spec target limit fuel :
  forall level n,
    1 <= fuel -> limit + 2 <= fuel + level ->
    match Utils.search entries fuel target limit level n with
    | None => False
    | Some (Some found) =>
        level <= limit /\ Utils.has_key entries target found = true
        /\ Utils.within entries (limit - level) n found
    | Some None =>
        forall m, level <= limit -> Utils.within entries (limit - level) n m ->
                  Utils.has_key entries target m = false
    end.
Proof.
  induction fuel as [|fuel IH]; intros level n Hpos Hfuel; [lia |].
  simpl. destruct (Nat.ltb_spec limit level) as [Hover|Hin].
  - intros m Hle. lia.
  - destruct (Utils.has_key entries target n) eqn:Hkey.
    + repeat split; auto. constructor.
    + assert (Hvisit : forall c, 
                match Utils.search entries fuel target limit (S level) c with
                | None => False
                | Some (Some found) =>
                    S level <= limit /\ Utils.has_key entries target found = true
                    /\ Utils.within entries (limit - S level) c found
                | Some None =>
                    forall m, S level <= limit -> Utils.within entries (limit - S level) c m ->
                              Utils.has_key entries target m = false
                end).
      { intros c. apply IH; lia. }
      pose proof (first_found_spec (Utils.search entries fuel target limit (S level))
                    (map snd (entries n))) as Hff.
      destruct (Utils.first_found _ _) as [[found|]|].
      * destruct Hff as (c & Hc & Hfound).
        { intros c _ Hnone. specialize (Hvisit c). rewrite Hnone in Hvisit. exact Hvisit. }
        specialize (Hvisit c). rewrite Hfound in Hvisit.
        destruct Hvisit as (Hle & Hk & Hw).
        repeat split; auto.
        apply in_map_iff in Hc. destruct Hc as ([k c'] & Heq & Hin'). simpl in Heq. subst c'.
        replace (limit - level) with (S (limit - S level)) by lia.
        econstructor; eauto.
      * intros m _ Hw.
        assert (Hall : forall c, In c (map snd (entries n)) ->
                  Utils.search entries fuel target limit (S level) c = Some None).
        { apply Hff. intros c _ Hnone. specialize (Hvisit c). rewrite Hnone in Hvisit. exact Hvisit. }
        inversion Hw as [d n'|d n' k child m' Hin' Hw' Hd]; subst.
        -- exact Hkey.
        -- assert (Hc : In child (map snd (entries n))).
           { apply in_map_iff. exists (k, child). auto. }
           specialize (Hall _ Hc). specialize (Hvisit child). rewrite Hall in Hvisit.
           apply Hvisit; [lia |].
           replace (limit - S level) with d by lia. exact Hw'.
      * apply Hff. intros c _ Hnone. specialize (Hvisit c). rewrite Hnone in Hvisit. exact Hvisit.
Qed.

Lemma first_found_more (visit visit' : Node -> option (option Node))
    (children : list Node) (r : option Node) :
  (forall c r', visit c = Some r' -> visit' c = Some r') ->
  Utils.first_found visit children = Some r ->
  Utils.first_found visit' children = Some r.
Proof.
  intros Hmore. induction children as [|c rest IH]; simpl; [auto |].
  destruct (visit c) as [[found|]|] eqn:Hc; intros H; try discriminate.
  - rewrite (Hmore _ _ Hc). exact H.
  - rewrite (Hmore _ _ Hc). auto.
Qed.

Lemma search_more_fuel target limit fuel :
  forall fuel' level n r,
    fuel <= fuel' ->
    Utils.search entries fuel target limit level n = Some r ->
    Utils.search entries fuel' target limit level n = Some r.
Proof.
  induction fuel as [|fuel IH]; intros fuel' level n r Hle; simpl; [discriminate |].
  destruct fuel' as [|fuel']; [lia |]. simpl.
  destruct (limit <? level)%nat; [auto |].
  destruct (Utils.has_key entries target n); [auto |].
  apply first_found_more. intros c r'. apply IH. lia.
Qed.

End NodeSearchProperties.

(** C1: on every payload, key name and depth limit the search comes to an
    answer.  A node it returns has the target key and lies within the limit
    below the root; it fails only when no node within the limit has the key,
    nodes beyond the limit not being searched, and what the caller then gets
    is fixed by the failure flag. *)
Theorem findNode_finds_key_within_depth :
  forall (Node : Type) (entries : Node -> list (string * Node))
         (Failure : Type) (on_failure : bool -> Failure)
         (root : Node) (target : string) (limit : nat) (flag : bool),
    match Utils.findNode entries on_failure root target limit flag with
    | Some (inl found) =>
        Utils.has_key entries target found = true
        /\ Utils.within entries limit root found
    | Some (inr failure) =>
        failure = on_failure flag
        /\ forall m, Utils.within entries limit root m ->
                     Utils.has_key entries target m = false
    | None => False
    end.
Proof.
  intros. unfold Utils.findNode.
  pose proof (search_spec Node entries target limit (limit + 2) 0 root) as H.
  destruct (Utils.search _ _ _ _ _ _) as [[found|]|].
  - destruct H as (_ & Hk & Hw); [lia | lia |].
    rewrite Nat.sub_0_r in Hw. auto.
  - split; [reflexivity |]. intros m Hw. apply H; try lia.
    rewrite Nat.sub_0_r. exact Hw.
  - apply H; lia.
Qed.

(** C4: the nesting of the search is bounded by the depth limit alone:
    whatever the payload, also one that leads back into itself or is deeper
    than the limit, [limit + 2] nested calls are enough for the search to
    finish, more change nothing, and [findNode] has an answer. *)
Theorem findNode_search_terminates :
  forall (Node : Type) (entries : Node -> list (string * Node))
         (Failure : Type) (on_failure : bool -> Failure)
         (root : Node) (target : string) (limit fuel : nat) (flag : bool),
    limit + 2 <= fuel ->
    Utils.search entries fuel target limit 0 root <> None
    /\ Utils.search entries fuel target limit 0 root
       = Utils.search entries (limit + 2) target limit 0 root
    /\ Utils.findNode entries on_failure root target limit flag <> None.
Proof.
  intros Node entries Failure on_failure root target limit fuel flag Hfuel.
  pose proof (search_spec Node entries target limit (limit + 2) 0 root) as H.
  unfold Utils.findNode.
  destruct (Utils.search entries (limit + 2) target limit 0 root) as [r|] eqn:Hr.
  - rewrite (search_more_fuel Node entries target limit (limit + 2) fuel 0 root r
               Hfuel Hr).
    repeat split; try discriminate. destruct r; discriminate.
  - exfalso. apply H; lia.
Qed.

(** On the sample accounts page: the node with the [accountItem] is found
    within 8 levels; the one with the [browseId] lies deeper and is not. *)
Example findNode_on_accounts_page :
  (exists node,
      Utils.findNode Utils.value_entries (fun flag : bool => flag)
        Sample.accounts_page "accountItem" 8 false = Some (inl node)
      /\ walk node ["accountItem"; "accountByline"] = Ok (Sample.text_runs ["12"; " subscribers"]))
  /\ Utils.findNode Utils.value_entries (fun flag : bool => flag)
       Sample.accounts_page "browseId" 8 true = Some (inr true)
  /\ exists node,
      Utils.findNode Utils.value_entries (fun flag : bool => flag)
        Sample.accounts_page "browseId" 9 true = Some (inl node).
Proof.
  repeat split; try (eexists; split); try eexists; vm_compute; reflexivity.
Qed.

(** What the description of [findNode] gives for the target of
    [getTimeWatched]: a node found for ["statRowRenderer"] has that key, so
    it is an object and no array of rows. *)
Lemma index_is_not_statRowRenderer (u : Decimal.uint) :
  String.eqb "statRowRenderer" (NilEmpty.string_of_uint u) = false.
Proof. destruct u; reflexivity. Qed.

Lemma array_has_no_statRowRenderer (elems : list value) :
  Utils.has_key Utils.value_entries "statRowRenderer" (VArr elems) = false.
Proof.
  unfold Utils.has_key, Utils.value_entries. generalize 0.
  induction elems as [|x rest IH]; intros i; [reflexivity |].
  cbn [Utils.indexed existsb fst].
  rewrite index_is_not_statRowRenderer. apply IH.
Qed.

Remark found_statRowRenderer_is_no_array :
  forall (Failure : Type) (on_failure : bool -> Failure)
         (root node : value) (limit : nat) (flag : bool),
    Utils.findNode Utils.value_entries on_failure root "statRowRenderer" limit flag
    = Some (inl node) ->
    as_array node = Err RuntimeTypeError.
Proof.
  intros Failure on_failure root node limit flag. unfold Utils.findNode.
  pose proof (search_spec value Utils.value_entries "statRowRenderer" limit
                (limit + 2) 0 root) as H.
  destruct (Utils.search _ _ _ _ _ _) as [[found|]|]; try discriminate.
  intros Hfound. inversion Hfound; subst found.
  destruct H as (_ & Hkey & _); [lia | lia |].
  destruct node; try reflexivity.
  rewrite array_has_no_statRowRenderer in Hkey. discriminate.
Qed.

(** ** The properties on the sample service *)

(** On the payload that contains itself, with the limit 13 of [#setSetting]:
    the search finishes, and fails. *)
Lemma findNode_search_terminates_on_loop :
  Utils.search Utils.loop_entries 40 "contents" 13 0 tt = Some None
  /\ Utils.findNode Utils.loop_entries (fun flag : bool => flag) tt "contents" 13 false
     = Some (inr false).
Proof.
  destruct (findNode_search_terminates unit Utils.loop_entries bool
              (fun flag : bool => flag) tt "contents" 13 40 false)
    as (_ & Hsame & _).
  - vm_compute. lia.
  - split; [rewrite Hsame |]; reflexivity.
Defined.


(** The sample settings page holds an item for the subscriptions setting,
    the first of the two options that carry the id, and one for the privacy
    of the subscriptions. *)
Lemma sample_page_item_subscriptions :
  page_item Sample.findNode Sample.string_to_number
    "SUBSCRIPTIONS" "Your preferences" Sample.settings_page (VStr "407").
Proof.
  unfold page_item. eexists. eexists.
  exists [Sample.switch "RECOMMENDED_VIDEOS" "11"], (Sample.switch "SUBSCRIPTIONS" "407"),
         [Sample.switch "SUBSCRIPTIONS" "999"; Sample.switch "SUBSCRIPTIONS_PRIVACY" "77"].
  eexists. repeat split; try reflexivity.
  constructor; [| constructor]. eexists. split; reflexivity.
Qed.

Lemma sample_page_item_privacy :
  page_item Sample.findNode Sample.string_to_number
    "SUBSCRIPTIONS_PRIVACY" "settingsSwitchRenderer" Sample.settings_page (VStr "77").
Proof.
  unfold page_item. eexists. eexists.
  exists [Sample.switch "RECOMMENDED_VIDEOS" "11"; Sample.switch "SUBSCRIPTIONS" "407";
          Sample.switch "SUBSCRIPTIONS" "999"],
         (Sample.switch "SUBSCRIPTIONS_PRIVACY" "77"), [].
  eexists. repeat split; try reflexivity.
  repeat (constructor; [eexists; split; reflexivity |]). constructor.
Qed.

(** A notifications setter and a privacy setter on the sample service: each
    hands the dispatcher both requests, with the item id of the first option
    that carries its setting id. *)
Lemma setter_sends_item_id_on_sample :
  run_setter nat Sample.findNode Sample.throwIfMissing Sample.settings
    Sample.string_to_number SetSubscriptions (SVString "ON") Sample.start
  = both_requests nat "SPaccount_notifications"
      (VObj [("new_value", VBool true); ("setting_item_id", VStr "407")]) Sample.start
  /\ run_setter nat Sample.findNode Sample.throwIfMissing Sample.settings
       Sample.string_to_number SetSubscriptionsPrivate (SVString "OFF") Sample.start
     = both_requests nat "SPaccount_privacy"
         (VObj [("new_value", VBool true); ("setting_item_id", VStr "77")]) Sample.start
  /\ fst (both_requests nat "SPaccount_privacy"
            (VObj [("new_value", VBool true); ("setting_item_id", VStr "77")])
            Sample.start) = Ok Sample.done.
Proof.
  split; [| split; [| reflexivity]].
  - eapply (proj1 (setter_sends_item_id_of_matching_option nat Sample.findNode
                     Sample.throwIfMissing Sample.settings Sample.string_to_number
                     SetSubscriptions (SVString "ON") Sample.start))
      with (before := [Sample.switch "RECOMMENDED_VIDEOS" "11"])
           (chosen := Sample.switch "SUBSCRIPTIONS" "407")
           (after := [Sample.switch "SUBSCRIPTIONS" "999";
                      Sample.switch "SUBSCRIPTIONS_PRIVACY" "77"]);
      try reflexivity.
    + left. reflexivity.
    + constructor; [| constructor]. eexists. split; reflexivity.
  - eapply (proj1 (setter_sends_item_id_of_matching_option nat Sample.findNode
                     Sample.throwIfMissing Sample.settings Sample.string_to_number
                     SetSubscriptionsPrivate (SVString "OFF") Sample.start))
      with (before := [Sample.switch "RECOMMENDED_VIDEOS" "11";
                       Sample.switch "SUBSCRIPTIONS" "407";
                       Sample.switch "SUBSCRIPTIONS" "999"])
           (chosen := Sample.switch "SUBSCRIPTIONS_PRIVACY" "77")
           (after := []);
      try reflexivity.
    + right. reflexivity.
    + repeat (constructor; [eexists; split; reflexivity |]). constructor.
Defined.

(** "ON" on the sample service: [false] is handed on for the privacy
    setting, [true] for the notifications setting. *)
Lemma setSetting_sends_flag_on_sample :
  setSetting nat Sample.findNode Sample.throwIfMissing Sample.string_to_number
    "SUBSCRIPTIONS_PRIVACY" "SPaccount_privacy" (SVString "ON") Sample.start
  = both_requests nat "SPaccount_privacy"
      (VObj [("new_value", VBool false); ("setting_item_id", VStr "77")]) Sample.start
  /\ setSetting nat Sample.findNode Sample.throwIfMissing Sample.string_to_number
       "SUBSCRIPTIONS" "SPaccount_notifications" (SVString "ON") Sample.start
     = both_requests nat "SPaccount_notifications"
         (VObj [("new_value", VBool true); ("setting_item_id", VStr "407")])
         Sample.start.
Proof.
  split.
  - exact (proj1 (proj1 (setSetting_sends_flag nat Sample.findNode
                           Sample.throwIfMissing Sample.string_to_number
                           "SUBSCRIPTIONS_PRIVACY" (SVString "ON") Sample.start)
                    true Sample.settings_page (VStr "77")
                    (or_introl (conj eq_refl eq_refl)))
             eq_refl eq_refl sample_page_item_privacy).
  - exact (proj2 (proj1 (setSetting_sends_flag nat Sample.findNode
                           Sample.throwIfMissing Sample.string_to_number
                           "SUBSCRIPTIONS" (SVString "ON") Sample.start)
                    true Sample.settings_page (VStr "407")
                    (or_introl (conj eq_refl eq_refl)))
             eq_refl eq_refl sample_page_item_subscriptions).
Defined.


(** [getInfo] on the sample accounts page. *)
Lemma getInfo_on_sample :
  exists info st',
    getInfo nat Sample.findNode Sample.start = (Ok info, st')
    /\ get Sample.profile "accountName" = Ok (name info)
    /\ subscriber_count info = "12 subscribers"
    /\ channel_id info = VStr "UC0001"
    /\ log st' = [ReqAccount "account/accounts_list" (VObj [("client", VStr "ANDROID")])].
Proof.
  pose (settled := getInfo nat Sample.findNode Sample.start).
  assert (Hrun : getInfo nat Sample.findNode Sample.start
                 = (Ok {| name := VStr "Sam"; email := VStr "sam@example.org";
                          channel_id := VStr "UC0001";
                          subscriber_count := "12 subscribers";
                          photo := VArr [VObj [("url", VStr "p.png")]] |},
                    snd settled)) by reflexivity.
  destruct (getInfo_projects_response nat Sample.findNode _ _ _ Hrun)
    as (response & data & node & profile & runs & texts & contents & section
        & footers & footer & _ & Hlog & _).
  eexists. exists (snd settled).
  split; [exact Hrun |].
  split; [reflexivity |]. split; [reflexivity |]. split; [reflexivity |].
  exact Hlog.
Defined.

(** [getTimeWatched] on the sample page: three rows, the divider dropped. *)
Lemma getTimeWatched_on_sample :
  exists stats st' rows,
    getTimeWatched nat Sample.findNode Sample.start = (Ok stats, st')
    /\ List.length rows = 3
    /\ rows_stats rows stats
    /\ stats = [{| title := "Today"; time := "1 hr 5 min" |};
                {| title := "Last 7 days"; time := "9 hr" |}].
Proof.
  pose (settled := getTimeWatched nat Sample.findNode Sample.start).
  assert (Hrun : getTimeWatched nat Sample.findNode Sample.start
                 = (Ok [{| title := "Today"; time := "1 hr 5 min" |};
                        {| title := "Last 7 days"; time := "9 hr" |}],
                    snd settled)) by reflexivity.
  destruct (getTimeWatched_rows nat Sample.findNode _ _ _ Hrun)
    as (response & data & rows & Hpage & _ & Hdata & Hrows & Hstats).
  vm_compute in Hpage. inversion Hpage; subst response; clear Hpage.
  vm_compute in Hdata. inversion Hdata; subst data; clear Hdata.
  vm_compute in Hrows. inversion Hrows; subst rows; clear Hrows.
  eexists. exists (snd settled). eexists.
  split; [exact Hrun |]. split; [| split; [exact Hstats | reflexivity]].
  reflexivity.
Defined.

(** ** Further properties on the sample service *)

(** A type that names no settings page: the page is fetched, then the call
    rejects. *)
Lemma setSetting_unknown_type_on_sample :
  setSetting nat Sample.findNode Sample.throwIfMissing Sample.string_to_number
    "SUBSCRIPTIONS" "SPaccount" (SVString "ON") Sample.start
  = (Err (TypeError "undefined is not a function"),
     after_page nat "SPaccount" Sample.start)
  /\ log (after_page nat "SPaccount" Sample.start) = [ReqBrowse "SPaccount" VUndefined].
Proof.
  split; [| reflexivity].
  apply (setSetting_unknown_type nat Sample.findNode Sample.throwIfMissing
           Sample.string_to_number "SUBSCRIPTIONS" "SPaccount" (SVString "ON")
           Sample.start Sample.settings_page eq_refl eq_refl eq_refl).
  - vm_compute. discriminate.
  - vm_compute. discriminate.
Defined.

(** A setting id that no option of the sample page carries. *)
Lemma setSetting_no_matching_option_on_sample :
  setSetting nat Sample.findNode Sample.throwIfMissing Sample.string_to_number
    "AUTOPLAY" "SPaccount_notifications" (SVString "OFF") Sample.start
  = (Err RuntimeTypeError, after_page nat "SPaccount_notifications" Sample.start).
Proof.
  apply (setSetting_no_matching_option nat Sample.findNode Sample.throwIfMissing
           Sample.string_to_number "AUTOPLAY" "SPaccount_notifications"
           (SVString "OFF") Sample.start Sample.settings_page
           [Sample.switch "RECOMMENDED_VIDEOS" "11"; Sample.switch "SUBSCRIPTIONS" "407";
            Sample.switch "SUBSCRIPTIONS" "999"; Sample.switch "SUBSCRIPTIONS_PRIVACY" "77"]
           eq_refl eq_refl eq_refl eq_refl).
  repeat (constructor; [eexists; split; [reflexivity | vm_compute; discriminate] |]).
  constructor.
Defined.

(** On the page whose first option is no switch, the option that carries
    the id is never reached. *)
Lemma setSetting_stops_at_malformed_option_on_sample :
  setSetting nat Sample.findNode Sample.throwIfMissing Sample.string_to_number
    "SUBSCRIPTIONS" "SPaccount_notifications" (SVString "ON")
    (Sample.start_with Sample.mixed_page)
  = (Err RuntimeTypeError,
     after_page nat "SPaccount_notifications" (Sample.start_with Sample.mixed_page))
  /\ matches_setting Sample.string_to_number "SUBSCRIPTIONS"
       (Sample.switch "SUBSCRIPTIONS" "407") = Ok true.
Proof.
  split; [| reflexivity].
  apply (setSetting_stops_at_malformed_option nat Sample.findNode
           Sample.throwIfMissing Sample.string_to_number
           "SUBSCRIPTIONS" "SPaccount_notifications" (SVString "ON")
           (Sample.start_with Sample.mixed_page) Sample.mixed_page
           [] (VObj [("settingsDividerRenderer", VObj [])])
           [Sample.switch "SUBSCRIPTIONS" "407"] RuntimeTypeError
           eq_refl eq_refl eq_refl eq_refl (Forall_nil _) eq_refl).
Defined.

(** The privacy type with a space after it: "ON" is handed on as [true]. *)
Lemma setSetting_untrimmed_privacy_on_sample :
  trim "SPaccount_privacy " = "SPaccount_privacy"
  /\ setSetting nat Sample.findNode Sample.throwIfMissing Sample.string_to_number
       "SUBSCRIPTIONS_PRIVACY" "SPaccount_privacy " (SVString "ON") Sample.start
     = both_requests nat "SPaccount_privacy "
         (VObj [("new_value", VBool true); ("setting_item_id", VStr "77")])
         Sample.start.
Proof.
  split; [reflexivity |].
  assert (Htype : "SPaccount_privacy " <> "SPaccount_privacy") by discriminate.
  exact (proj1 (setSetting_untrimmed_privacy_not_negated nat Sample.findNode
                  Sample.throwIfMissing Sample.string_to_number
                  "SUBSCRIPTIONS_PRIVACY" "SPaccount_privacy " (SVString "ON")
                  Sample.start eq_refl Htype)
           true Sample.settings_page (VStr "77") eq_refl eq_refl eq_refl
           sample_page_item_privacy).
Defined.

(** The sample page of three rows, one of them a divider, gives two
    records. *)
Lemma getTimeWatched_counts_renderers_on_sample :
  exists stats st' rows,
    getTimeWatched nat Sample.findNode Sample.start = (Ok stats, st')
    /\ List.length rows = 3
    /\ List.length stats = List.length (filter shows_renderer rows)
    /\ List.length stats = 2.
Proof.
  pose (settled := getTimeWatched nat Sample.findNode Sample.start).
  assert (Hrun : getTimeWatched nat Sample.findNode Sample.start
                 = (Ok [{| title := "Today"; time := "1 hr 5 min" |};
                        {| title := "Last 7 days"; time := "9 hr" |}],
                    snd settled)) by reflexivity.
  destruct (getTimeWatched_counts_renderers nat Sample.findNode _ _ _ Hrun)
    as (response & data & rows & Hpage & Hdata & Hrows & Hcount & _).
  vm_compute in Hpage. inversion Hpage; subst response; clear Hpage.
  vm_compute in Hdata. inversion Hdata; subst data; clear Hdata.
  vm_compute in Hrows. inversion Hrows; subst rows; clear Hrows.
  exists [{| title := "Today"; time := "1 hr 5 min" |};
          {| title := "Last 7 days"; time := "9 hr" |}], (snd settled),
         [Sample.stat_row ["Today"] ["1 hr"; " 5 min"];
          VObj [("dividerRenderer", VObj [])];
          Sample.stat_row ["Last 7 days"] ["9 hr"]].
  split; [exact Hrun |]. split; [reflexivity |]. split; [exact Hcount | reflexivity].
Defined.

(** An accounts list without an account item. *)
Lemma getInfo_without_account_item_on_sample :
  get (VObj []) "accountItem" = Ok VUndefined
  /\ fst (getInfo nat Sample.findNode (Sample.start_with Sample.empty_accounts_page))
     = Err RuntimeTypeError.
Proof.
  split; [reflexivity |].
  apply (getInfo_without_account_item nat Sample.findNode
           (Sample.start_with Sample.empty_accounts_page)
           Sample.empty_accounts_page
           (VObj [("contents", VArr [VObj []])]) (VObj [])
           eq_refl eq_refl eq_refl).
  intros item Hitem. inversion Hitem. reflexivity.
Defined.

(** The analytics browse on the sample service carries the encoded channel
    id of the sample accounts page. *)
Lemma getAnalytics_encodes_footer_browse_id_on_sample :
  log (snd (getAnalytics nat value Ok Sample.findNode Sample.encode Sample.start))
  = [ReqAccount "account/accounts_list" (VObj [("client", VStr "ANDROID")]);
     ReqBrowse "FEanalytics_screen"
       (VObj [("params", VStr "params:UC0001"); ("client", VStr "ANDROID")])]
  /\ exists response info,
       footer_browse_id response = Ok (channel_id info)
       /\ Sample.encode (channel_id info) = Ok (VStr "params:UC0001").
Proof.
  split; [reflexivity |].
  destruct (getAnalytics_encodes_footer_browse_id nat value Ok Sample.findNode
              Sample.encode Sample.start
              [ReqAccount "account/accounts_list" (VObj [("client", VStr "ANDROID")]);
               ReqBrowse "FEanalytics_screen"
                 (VObj [("params", VStr "params:UC0001"); ("client", VStr "ANDROID")])]
              "FEanalytics_screen"
              (VObj [("params", VStr "params:UC0001"); ("client", VStr "ANDROID")])
              eq_refl (or_intror (or_introl eq_refl)))
    as (response & info & params & _ & _ & Hfooter & Hencode & _ & Hargs & _).
  inversion Hargs; subst params.
  exists response, info. split; assumption.
Defined.
